(** * The cost agent: a shallow embedding of [run_cost_agent/__init__.py]

    The module is an Azure Function whose entry point runs four graph
    nodes in a fixed order (fetch the cost, flag an anomaly, ask a language
    model for an optimisation, build the report), uploads the report to blob
    storage and returns it as the HTTP response.

    Python values are an inductive type, the pipeline state (a [dict] used
    as a map from key to value) is a [gmap], exceptions and outbound calls
    live in a small monad [Py] over a world that records every outbound
    call, and the external services (language model, blob storage, clock)
    are the fields of an environment [Env]. *)

From Stdlib Require Import ZArith QArith String Ascii List Bool Lia SpecFloat.
From stdpp Require Import base option gmap strings list fin_maps.

Local Open Scope string_scope.
Local Open Scope Z_scope.

Set Warnings "-register-all".

(** ** Python values *)

(** Text is a byte string holding the UTF-8 form of a Python [str]; a
    [dict] that is serialised or printed keeps its insertion order, so it
    is an association list with distinct keys. *)
Inductive value : Type :=
  | VNone
  | VBool (b : bool)
  | VInt (z : Z)
  | VFloat (f : spec_float)
  | VStr (s : string)
  | VList (l : list value)
  | VDict (d : list (string * value)).

Inductive exn : Type :=
  | KeyError (key : string)
  | TypeError
  | JSONDecodeError
  | ValueError
  | RecursionError
  | UnicodeEncodeError
  | ServiceError (msg : string).

Inductive result (A : Type) : Type :=
  | Ok (a : A)
  | Raise (e : exn).
Arguments Ok {A} a.
Arguments Raise {A} e.

Module Dict.

(** [d.get(k)] on an insertion-ordered dict. *)
Fixpoint get (d : list (string * value)) (k : string) : option value :=
  match d with
  | [] => None
  | (k', v) :: d' => if String.eqb k k' then Some v else get d' k
  end.

(** [d[k] = v]: an existing key keeps its position, a new key goes last. *)
Fixpoint set (d : list (string * value)) (k : string) (v : value)
  : list (string * value) :=
  match d with
  | [] => [(k, v)]
  | (k', v') :: d' =>
      if String.eqb k k' then (k, v) :: d' else (k', v') :: set d' k v
  end.

Definition keys (d : list (string * value)) : list string := map fst d.

End Dict.

(** ** Binary64 numbers *)

Module Float.

Definition prec : Z := 53.
Definition emax : Z := 1024.

(** The correctly rounded binary64 number nearest to [digits * 10^dexp]
    (round half to even), as [float("...")] and a float literal of the
    source compute it. *)
Definition of_decimal (neg : bool) (digits : Z) (dexp : Z) : spec_float :=
  match digits with
  | Zpos m =>
      if 0 <=? dexp
      then binary_round prec emax neg (Z.to_pos (Zpos m * 10 ^ dexp)) 0
      else
        let '(q, e, l) :=
          SFdiv_core_binary prec emax (Zpos m) 0 (10 ^ (- dexp)) 0 in
        binary_round_aux prec emax neg q e l
  | _ => S754_zero neg
  end.

(** The signed mantissa of a finite number. *)
Definition signed (neg : bool) (m : positive) : Z :=
  if neg then Zneg m else Zpos m.

(** [f > n] for a float [f] and an int [n]: Python compares the two
    exactly; a NaN compares false and the infinities lie outside every
    int. *)
Definition gt_int (f : spec_float) (n : Z) : bool :=
  match f with
  | S754_nan => false
  | S754_infinity neg => negb neg
  | S754_zero _ => n <? 0
  | S754_finite neg m e =>
      if 0 <=? e then n <? signed neg m * 2 ^ e
      else n * 2 ^ (- e) <? signed neg m
  end.

(** The rational a finite float denotes. *)
Definition to_Q (f : spec_float) : option Q :=
  match f with
  | S754_zero _ => Some 0%Q
  | S754_finite neg m e =>
      Some (if 0 <=? e then inject_Z (signed neg m * 2 ^ e)
            else Qmake (signed neg m) (Z.to_pos (2 ^ (- e))))
  | _ => None
  end.

End Float.

(** ** The JSON decoder

    [json.loads] of the Python standard library, as the source calls it (no
    hooks, strict mode): the scanner of CPython's [json] package, written
    as a recursive descent over the remaining input. Besides the
    [JSONDecodeError] of a malformed text the decoder meets two limits of
    the interpreter: the conversion of an int with more digits than the
    interpreter allows raises a [ValueError], and entering an array or an
    object deeper than the call stack allows raises a [RecursionError]. *)

Module Json.

Local Open Scope char_scope.
Local Open Scope Z_scope.

(** The limits of the interpreter at the call of [json.loads]:
    [max_depth] is how many arrays and objects inside one another the
    recursion limit still lets the decoder enter (the limit, 1000 by
    default, less the frames in use); [max_str_digits] is
    [sys.get_int_max_str_digits()], 4300 by default and 0 for no limit. *)
Record limits : Type := {
  max_depth : nat;
  max_str_digits : nat
}.

(** [int(text)] refuses a decimal text of more than 640 digits when a
    limit is set and the text has more digits than it. *)
Definition too_many_digits (lim : limits) (digits : string) : bool :=
  ((640 <? String.length digits)%nat
   && (0 <? max_str_digits lim)%nat
   && (max_str_digits lim <? String.length digits)%nat)%bool.

Definition quote : ascii := "034".
Definition backslash : ascii := "092".

Definition code (c : ascii) : Z := Z.of_N (N_of_ascii c).
Definition byte (z : Z) : ascii := ascii_of_N (Z.to_N z).

(** The decoder skips exactly space, tab, line feed and carriage return. *)
Definition is_whitespace (c : ascii) : bool :=
  Ascii.eqb c " " || Ascii.eqb c "009" || Ascii.eqb c "010"
  || Ascii.eqb c "013".

Fixpoint skip_whitespace (s : string) : string :=
  match s with
  | String c rest => if is_whitespace c then skip_whitespace rest else s
  | EmptyString => s
  end.

Definition is_digit (c : ascii) : bool :=
  (48 <=? code c) && (code c <=? 57).

Fixpoint span_digits (s : string) : string * string :=
  match s with
  | String c rest =>
      if is_digit c
      then let '(ds, r) := span_digits rest in (String c ds, r)
      else (EmptyString, s)
  | EmptyString => (EmptyString, s)
  end.

(** The value of a run of decimal digits, most significant first. *)
Fixpoint decimal (acc : Z) (ds : string) : Z :=
  match ds with
  | String c rest => decimal (acc * 10 + (code c - 48)) rest
  | EmptyString => acc
  end.

Definition hex_value (c : ascii) : option Z :=
  let n := code c in
  if (48 <=? n) && (n <=? 57) then Some (n - 48)
  else if (65 <=? n) && (n <=? 70) then Some (n - 55)
  else if (97 <=? n) && (n <=? 102) then Some (n - 87)
  else None.

Definition hex4 (a b c d : ascii) : option Z :=
  match hex_value a, hex_value b, hex_value c, hex_value d with
  | Some x, Some y, Some z, Some w => Some (((x * 16 + y) * 16 + z) * 16 + w)
  | _, _, _, _ => None
  end.

Definition is_high_surrogate (cp : Z) : bool :=
  (55296 <=? cp) && (cp <=? 56319).
Definition is_low_surrogate (cp : Z) : bool :=
  (56320 <=? cp) && (cp <=? 57343).
Definition join_surrogates (hi lo : Z) : Z :=
  65536 + (hi - 55296) * 1024 + (lo - 56320).

(** The UTF-8 form of a code point (a lone surrogate takes the three-byte
    form). *)
Definition utf8 (cp : Z) : string :=
  if cp <? 128 then String (byte cp) EmptyString
  else if cp <? 2048 then
    String (byte (192 + cp / 64))
      (String (byte (128 + cp mod 64)) EmptyString)
  else if cp <? 65536 then
    String (byte (224 + cp / 4096))
      (String (byte (128 + (cp / 64) mod 64))
         (String (byte (128 + cp mod 64)) EmptyString))
  else
    String (byte (240 + cp / 262144))
      (String (byte (128 + (cp / 4096) mod 64))
         (String (byte (128 + (cp / 64) mod 64))
            (String (byte (128 + cp mod 64)) EmptyString))).

(** The one-character escapes after a backslash. *)
Definition simple_escape (c : ascii) : option ascii :=
  if Ascii.eqb c quote then Some quote
  else if Ascii.eqb c backslash then Some backslash
  else if Ascii.eqb c "/" then Some "/"
  else if Ascii.eqb c "b" then Some "008"
  else if Ascii.eqb c "f" then Some "012"
  else if Ascii.eqb c "n" then Some "010"
  else if Ascii.eqb c "r" then Some "013"
  else if Ascii.eqb c "t" then Some "009"
  else None.

Definition emit (chunk : string) (tail : option (string * string))
  : option (string * string) :=
  match tail with
  | Some (str, rest) => Some ((chunk ++ str)%string, rest)
  | None => None
  end.

(** [scanstring] in strict mode, started after the opening quote: the
    decoded text and the input after the closing quote. A control
    character, an unknown escape, a short or non-hexadecimal [\u] escape
    and a missing closing quote are errors. A high surrogate escape
    directly followed by a low surrogate escape is one code point. *)
Fixpoint scanstring (s : string) : option (string * string) :=
  match s with
  | EmptyString => None
  | String c rest =>
      if Ascii.eqb c quote then Some (EmptyString, rest)
      else if Ascii.eqb c backslash then
        match rest with
        | EmptyString => None
        | String e rest1 =>
            if Ascii.eqb e "u" then
              match rest1 with
              | String h1 (String h2 (String h3 (String h4 rest2))) =>
                  match hex4 h1 h2 h3 h4 with
                  | None => None
                  | Some cp =>
                      if is_high_surrogate cp then
                        match rest2 with
                        | String b (String u (String l1 (String l2
                            (String l3 (String l4 rest3))))) =>
                            if Ascii.eqb b backslash && Ascii.eqb u "u" then
                              match hex4 l1 l2 l3 l4 with
                              | None => None
                              | Some lo =>
                                  if is_low_surrogate lo
                                  then emit (utf8 (join_surrogates cp lo))
                                            (scanstring rest3)
                                  else emit (utf8 cp) (scanstring rest2)
                              end
                            else emit (utf8 cp) (scanstring rest2)
                        | _ => emit (utf8 cp) (scanstring rest2)
                        end
                      else emit (utf8 cp) (scanstring rest2)
                  end
              | _ => None
              end
            else
              match simple_escape e with
              | Some ch => emit (String ch EmptyString) (scanstring rest1)
              | None => None
              end
        end
      else if code c <=? 31 then None
      else emit (String c EmptyString) (scanstring rest)
  end.

Fixpoint strip_prefix (p s : string) : option string :=
  match p, s with
  | EmptyString, _ => Some s
  | String a p', String b s' =>
      if Ascii.eqb a b then strip_prefix p' s' else None
  | String _ _, EmptyString => None
  end.

(** The named constants; the three non-finite ones are accepted as
    [json.loads] accepts them by default. *)
Definition constant (s : string) : option (value * string) :=
  match strip_prefix "null"%string s with
  | Some r => Some (VNone, r)
  | None =>
  match strip_prefix "true"%string s with
  | Some r => Some (VBool true, r)
  | None =>
  match strip_prefix "false"%string s with
  | Some r => Some (VBool false, r)
  | None =>
  match strip_prefix "NaN"%string s with
  | Some r => Some (VFloat S754_nan, r)
  | None =>
  match strip_prefix "Infinity"%string s with
  | Some r => Some (VFloat (S754_infinity false), r)
  | None =>
  match strip_prefix "-Infinity"%string s with
  | Some r => Some (VFloat (S754_infinity true), r)
  | None => None
  end end end end end end.

(** An exponent is [e] or [E], an optional sign and at least one digit;
    anything shorter is left in the input. *)
Definition scan_exponent (s : string) : option Z * string :=
  match s with
  | String e r =>
      if Ascii.eqb e "e" || Ascii.eqb e "E" then
        let '(neg, r1) :=
          match r with
          | String sg r' =>
              if Ascii.eqb sg "-" then (true, r')
              else if Ascii.eqb sg "+" then (false, r')
              else (false, r)
          | EmptyString => (false, r)
          end in
        let '(ds, r2) := span_digits r1 in
        match ds with
        | EmptyString => (None, s)
        | _ => (Some (if neg then - decimal 0 ds else decimal 0 ds), r2)
        end
      else (None, s)
  | EmptyString => (None, s)
  end.

(** A fraction is a point followed by at least one digit. *)
Definition scan_fraction (s : string) : option string * string :=
  match s with
  | String dot (String d r) =>
      if Ascii.eqb dot "." && is_digit d
      then let '(ds, r') := span_digits r in (Some (String d ds), r')
      else (None, s)
  | _ => (None, s)
  end.

Inductive scan (A : Type) : Type :=
  | Scanned (a : A) (rest : string)
  | Invalid
  | Failed (e : exn)
  | Exhausted.
Arguments Scanned {A} a rest.
Arguments Invalid {A}.
Arguments Failed {A} e.
Arguments Exhausted {A}.

(** [_match_number]: an int when the text has neither fraction nor
    exponent, a float otherwise. The int is converted by [int], which
    raises a [ValueError] beyond the digit limit; [float] has no limit. *)
Definition match_number (lim : limits) (s : string) : scan value :=
  let '(neg, s1) :=
    match s with
    | String c r => if Ascii.eqb c "-" then (true, r) else (false, s)
    | EmptyString => (false, s)
    end in
  match s1 with
  | EmptyString => Invalid
  | String c r =>
      let int_part :=
        if (49 <=? code c) && (code c <=? 57)
        then let '(ds, r') := span_digits r in Some (String c ds, r')
        else if Ascii.eqb c "0" then Some (String c EmptyString, r)
        else None in
      match int_part with
      | None => Invalid
      | Some (ip, s2) =>
          let '(frac, s3) := scan_fraction s2 in
          let '(expo, s4) := scan_exponent s3 in
          match frac, expo with
          | None, None =>
              if too_many_digits lim ip then Failed ValueError
              else Scanned
                     (VInt (if neg then - decimal 0 ip else decimal 0 ip)) s4
          | _, _ =>
              let fd := match frac with Some f => f | None => EmptyString end in
              let ex := match expo with Some x => x | None => 0 end in
              Scanned (VFloat (Float.of_decimal neg
                                 (decimal 0 (ip ++ fd)%string)
                                 (ex - Z.of_nat (String.length fd)))) s4
          end
      end
  end.

(** [scan_once] and the two loops of [_parse_array] and [_parse_object].
    [depth] is the number of arrays and objects the decoder may still
    enter: entering one when none is left raises the [RecursionError],
    before anything inside it is read. [fuel] bounds the calls of the
    model; [decode] gives enough of it. *)
Fixpoint scan_once (fuel : nat) (lim : limits) (depth : nat) (s : string)
  : scan value :=
  match fuel with
  | O => Exhausted
  | S fuel' =>
      match s with
      | EmptyString => Invalid
      | String c rest =>
          if Ascii.eqb c quote then
            match scanstring rest with
            | Some (str, r) => Scanned (VStr str) r
            | None => Invalid
            end
          else if Ascii.eqb c "{" then
            match depth with
            | O => Failed RecursionError
            | S depth' =>
                match skip_whitespace rest with
                | String c' r =>
                    if Ascii.eqb c' "}" then Scanned (VDict []) r
                    else object_items fuel' lim depth' [] (String c' r)
                | EmptyString => Invalid
                end
            end
          else if Ascii.eqb c "[" then
            match depth with
            | O => Failed RecursionError
            | S depth' =>
                match skip_whitespace rest with
                | String c' r =>
                    if Ascii.eqb c' "]" then Scanned (VList []) r
                    else array_items fuel' lim depth' [] (String c' r)
                | EmptyString => Invalid
                end
            end
          else
            match constant s with
            | Some (v, r) => Scanned v r
            | None => match_number lim s
            end
      end
  end
with array_items (fuel : nat) (lim : limits) (depth : nat) (acc : list value)
    (s : string) : scan value :=
  match fuel with
  | O => Exhausted
  | S fuel' =>
      match scan_once fuel' lim depth s with
      | Scanned v r =>
          match skip_whitespace r with
          | String c r' =>
              if Ascii.eqb c "]" then Scanned (VList (acc ++ [v])) r'
              else if Ascii.eqb c ","
              then array_items fuel' lim depth (acc ++ [v])
                     (skip_whitespace r')
              else Invalid
          | EmptyString => Invalid
          end
      | Invalid => Invalid
      | Failed e => Failed e
      | Exhausted => Exhausted
      end
  end
with object_items (fuel : nat) (lim : limits) (depth : nat)
    (acc : list (string * value)) (s : string) : scan value :=
  match fuel with
  | O => Exhausted
  | S fuel' =>
      match s with
      | String q rest =>
          if Ascii.eqb q quote then
            match scanstring rest with
            | Some (key, r) =>
                match skip_whitespace r with
                | String colon r1 =>
                    if Ascii.eqb colon ":" then
                      match scan_once fuel' lim depth (skip_whitespace r1) with
                      | Scanned v r2 =>
                          match skip_whitespace r2 with
                          | String c r3 =>
                              if Ascii.eqb c "}"
                              then Scanned (VDict (Dict.set acc key v)) r3
                              else if Ascii.eqb c ","
                              then object_items fuel' lim depth
                                     (Dict.set acc key v) (skip_whitespace r3)
                              else Invalid
                          | EmptyString => Invalid
                          end
                      | Invalid => Invalid
                      | Failed e => Failed e
                      | Exhausted => Exhausted
                      end
                    else Invalid
                | EmptyString => Invalid
                end
            | None => Invalid
            end
          else Invalid
      | EmptyString => Invalid
      end
  end.

Definition fuel_for (s : string) : nat := S (2 * String.length s).

Definition bom : string :=
  String (byte 239) (String (byte 187) (String (byte 191) EmptyString)).

(** [JSONDecoder.decode]: one value between optional whitespace, and
    nothing after it. *)
Definition decode (lim : limits) (s : string) : scan value :=
  match scan_once (fuel_for s) lim (max_depth lim) (skip_whitespace s) with
  | Scanned v rest =>
      match skip_whitespace rest with
      | EmptyString => Scanned v EmptyString
      | String _ _ => Invalid
      end
  | other => other
  end.

(** [json.loads] on a [str]: the value, the [JSONDecodeError] of a
    malformed text, or the error of a limit. A text that starts with a
    byte order mark is refused. *)
Definition loads (lim : limits) (s : string) : result value :=
  match strip_prefix bom s with
  | Some _ => Raise JSONDecodeError
  | None =>
      match decode lim s with
      | Scanned v _ => Ok v
      | Invalid => Raise JSONDecodeError
      | Failed e => Raise e
      | Exhausted => Raise RecursionError
      end
  end.

(** The text of [n] copies of a character, to write long replies. *)
Fixpoint copies (n : nat) (c : ascii) : string :=
  match n with
  | O => EmptyString
  | S n' => String c (copies n' c)
  end.

(** Puts double quotes where a literal has single ones, to write JSON
    texts in examples. *)
Fixpoint dq (s : string) : string :=
  match s with
  | String c rest => String (if Ascii.eqb c "'" then quote else c) (dq rest)
  | EmptyString => EmptyString
  end.

End Json.

(** ** Outbound calls, the world and the monad of effects *)

(** The keyword arguments the chat client is built with. *)
Record LlmConfig : Type := {
  api_key : string;
  azure_endpoint : string;
  deployment_name : string;
  api_version : string;
  temperature : spec_float;
  max_tokens : Z
}.

(** What the source reads off the object [llm.invoke] returns: its
    [content] attribute when it has one, and its [str] form. *)
Record Response : Type := {
  content : option value;
  str_form : string
}.

(** [Printed args] is a [print] that wrote all its arguments;
    [PrintAborted written] is a [print] that wrote the arguments [written]
    and raised at the next one. *)
Inductive event : Type :=
  | Printed (args : list value)
  | PrintAborted (written : list value)
  | LlmInvoked (cfg : LlmConfig) (prompt : string)
  | BlobUploaded (container name data : string) (overwrite : bool).

(** The world counts the clock readings taken so far and records the
    outbound calls in the order they were made. *)
Record World : Type := {
  clock_reads : nat;
  trace : list event
}.

(** The services outside the module. Each may answer or raise; the clock
    gives the ISO-8601 text of its n-th reading; [py_str] is Python's
    [str] and [json_dumps] is [json.dumps] with the given [indent];
    [interpreter] gives the limits the decoder runs under. *)
Record Env : Type := {
  llm_invoke : LlmConfig -> string -> result Response;
  connect_storage : string -> result unit;
  upload_blob : string -> string -> string -> bool -> result unit;
  utcnow_isoformat : nat -> string;
  py_str : value -> string;
  json_dumps : Z -> value -> string;
  interpreter : Json.limits
}.

Definition Py (A : Type) : Type := World -> result A * World.

#[global] Instance Py_ret : MRet Py := fun A a w => (Ok a, w).

#[global] Instance Py_bind : MBind Py := fun A B f m w =>
  match m w with
  | (Ok a, w') => f a w'
  | (Raise e, w') => (Raise e, w')
  end.

Definition raise {A : Type} (e : exn) : Py A := fun w => (Raise e, w).

Definition lift {A : Type} (r : result A) : Py A := fun w => (r, w).

Definition record (ev : event) : Py unit := fun w =>
  (Ok tt, {| clock_reads := clock_reads w; trace := trace w ++ [ev] |}).

(** [try: body except <the exceptions caught selects>: handler]. *)
Definition try_except {A : Type} (body : Py A) (caught : exn -> bool)
    (handler : Py A) : Py A := fun w =>
  match body w with
  | (Raise e, w') => if caught e then handler w' else (Raise e, w')
  | done => done
  end.

Definition is_JSONDecodeError (e : exn) : bool :=
  match e with JSONDecodeError => true | _ => false end.

(** ** Python operations the nodes use *)

Abbreviation state := (gmap string value).

(** [state[key]] *)
Definition getitem (st : state) (key : string) : Py value :=
  match st !! key with
  | Some v => mret v
  | None => raise (KeyError key)
  end.

(** [state.get(key, default)] *)
Definition get_or (st : state) (key : string) (default : value) : value :=
  match st !! key with
  | Some v => v
  | None => default
  end.

(** [obj[key]] with a text key: only a dict can be indexed by one. *)
Definition subscript (obj : value) (key : string) : Py value :=
  match obj with
  | VDict d =>
      match Dict.get d key with
      | Some v => mret v
      | None => raise (KeyError key)
      end
  | _ => raise TypeError
  end.

(** [x > n] for an int literal [n]: defined on the numbers (a bool is an
    int), a [TypeError] on everything else. *)
Definition gt_int (x : value) (n : Z) : Py bool :=
  match x with
  | VBool b => mret (n <? Z.b2z b)
  | VInt z => mret (n <? z)
  | VFloat f => mret (Float.gt_int f n)
  | _ => raise TypeError
  end.

(** [json.loads(x)]: a [TypeError] unless [x] is text; on a text, the
    value or the exception of the decoder. *)
Definition json_loads (lim : Json.limits) (x : value) : Py value :=
  match x with
  | VStr s => lift (Json.loads lim s)
  | _ => raise TypeError
  end.

(** A text holds a surrogate when its UTF-8 form has the three-byte form
    of one: the byte 237 followed by a byte from 160 to 191. Such a text
    cannot be written to the standard output, a UTF-8 stream that refuses
    what it cannot encode. *)
Fixpoint has_surrogate (s : string) : bool :=
  match s with
  | String a (String b _ as rest) =>
      ((Json.code a =? 237) && (160 <=? Json.code b) && (Json.code b <=? 191))
      || has_surrogate rest
  | _ => false
  end.

(** [print] writes a [str] as it is and anything else through [str],
    which escapes the surrogates inside a list or a dict. *)
Definition printable (x : value) : bool :=
  match x with
  | VStr s => negb (has_surrogate s)
  | _ => true
  end.

(** The arguments [print] writes before the first it cannot write. *)
Fixpoint written_before (args : list value) : list value :=
  match args with
  | x :: rest => if printable x then x :: written_before rest else []
  | [] => []
  end.

Definition nl : string := String "010" EmptyString.

Section Agent.

Variable E : Env.

(** What an f-string puts for [{x}]: the text itself for a [str], the
    [str] form for anything else. *)
Definition format_value (x : value) : string :=
  match x with
  | VStr s => s
  | _ => py_str E x
  end.

(** [print] with its positional arguments: they are written in order,
    and writing a text that holds a surrogate raises. *)
Definition print (args : list value) : Py unit :=
  if forallb printable args then record (Printed args)
  else record (PrintAborted (written_before args));;
       raise UnicodeEncodeError.

(** [datetime.datetime.utcnow().isoformat()] *)
Definition utcnow : Py string := fun w =>
  (Ok (utcnow_isoformat E (clock_reads w)),
   {| clock_reads := S (clock_reads w); trace := trace w |}).

(** [llm.invoke(prompt)] *)
Definition invoke (cfg : LlmConfig) (prompt : string) : Py Response :=
  record (LlmInvoked cfg prompt);; lift (llm_invoke E cfg prompt).

(** [getattr(response, "content", str(response))] *)
Definition getattr_content (response : Response) : value :=
  match content response with
  | Some v => v
  | None => VStr (str_form response)
  end.

(** *** Configuration *)

Definition AZURE_OPENAI_ENDPOINT : string :=
  "https://<AZURE_OPENAI_DEPLOYMENT_ENDPOINT>.cognitiveservices.azure.com/".
Definition AZURE_OPENAI_API_KEY : string := "<AZURE_OPENAI_API_KEY>".
Definition AZURE_OPENAI_DEPLOYMENT : string := "gpt-4o-mini".
Definition AZURE_OPENAI_API_VERSION : string := "2024-12-01-preview".
Definition AZURE_STORAGE_CONNECTION_STRING : string :=
  "DefaultEndpointsProtocol=https;"
  ++ "AccountName=<AZURE_STORAGE_ACCOUNT_NAME>;"
  ++ "AccountKey=<AZURE_STORAGE_ACCOUNT_ACCESS_KEY>;"
  ++ "EndpointSuffix=core.windows.net".
Definition BLOB_CONTAINER_NAME : string := "agent-state".

(** *** The graph nodes

    A node receives the state dict, may write to it and returns a dict.
    The first three return the dict they were given, so their result is
    also what the argument holds after the call. *)

Definition cost_observation : value :=
  VDict [("resource", VStr "Azure Storage Account");
         ("monthly_cost_usd", VFloat (Float.of_decimal false 235 (-2)));
         ("currency", VStr "USD")].

Definition fetch_cost_data (st : state) : Py state :=
  let st := <["cost_data" := cost_observation]> st in
  mret st.

Definition detect_anomaly (st : state) : Py state :=
  cost_data ← getitem st "cost_data";
  cost ← subscript cost_data "monthly_cost_usd";
  flag ← gt_int cost 5;
  let st := <["anomaly_detected" := VBool flag]> st in
  mret st.

Definition default_question : string := "Explore my Azure costs".

Definition llm : LlmConfig :=
  {| api_key := AZURE_OPENAI_API_KEY;
     azure_endpoint := AZURE_OPENAI_ENDPOINT;
     deployment_name := AZURE_OPENAI_DEPLOYMENT;
     api_version := AZURE_OPENAI_API_VERSION;
     temperature := Float.of_decimal false 1 (-1);
     max_tokens := 400 |}.

Definition prompt_head : string :=
  nl ++ "You are an Azure cost optimization assistant." ++ nl
  ++ nl ++ "Cost data:" ++ nl.

Definition prompt_question_label : string :=
  nl ++ nl ++ "User question:" ++ nl.

Definition prompt_tail : string :=
  nl ++ nl
  ++ "STRICTLY return a single valid JSON object with the keys:" ++ nl
  ++ "- resource" ++ nl
  ++ "- recommended_change" ++ nl
  ++ "- estimated_monthly_savings" ++ nl
  ++ "- risk_level" ++ nl.

(** The f-string of [simulate_optimizations]. *)
Definition prompt_text (cost_data user_question : value) : string :=
  prompt_head ++ format_value cost_data
  ++ prompt_question_label ++ format_value user_question
  ++ prompt_tail.

Definition simulate_optimizations (st : state) : Py state :=
  let user_question :=
    get_or st "user_question" (VStr default_question) in
  cost_data ← getitem st "cost_data";
  let prompt := prompt_text cost_data user_question in
  response ← invoke llm prompt;
  let raw_text := getattr_content response in
  print [VStr "📝 Raw LLM output:"; raw_text];;
  try_except
    (parsed ← json_loads (interpreter E) raw_text;
     mret (<["optimizations" := parsed]> st))
    is_JSONDecodeError
    (mret (<["optimizations" := VDict [("raw_output", raw_text)]]> st)).

(** The report node returns a new dict; the second component is the
    state dict as the call leaves it. *)
Definition generate_report (st : state) : Py (value * state) :=
  now ← utcnow;
  mret (VDict [("timestamp", VStr now);
               ("cost_data", get_or st "cost_data" VNone);
               ("anomaly_detected", get_or st "anomaly_detected" VNone);
               ("optimizations", get_or st "optimizations" VNone)],
        st).

(** *** Blob storage *)

Definition save_state_to_blob (report : value) : Py unit :=
  lift (connect_storage E AZURE_STORAGE_CONNECTION_STRING);;
  now ← utcnow;
  let blob_name := "agent-report-" ++ now ++ ".json" in
  let data := json_dumps E 2 report in
  record (BlobUploaded BLOB_CONTAINER_NAME blob_name data true);;
  lift (upload_blob E BLOB_CONTAINER_NAME blob_name data true).

(** *** The function entry point *)

Record HttpRequest : Type := { params : gmap string string }.

Record HttpResponse : Type := {
  body : string;
  mimetype : string;
  status_code : Z
}.

(** The compiled graph: entry point [fetch_cost], then the edges
    [fetch_cost -> detect_anomaly -> optimize -> report]; each node is
    called on the dict the previous one returned and the last node's
    dict is the result of [app.invoke]. *)
Definition app_invoke (input : state) : Py value :=
  st ← fetch_cost_data input;
  st ← detect_anomaly st;
  st ← simulate_optimizations st;
  out ← generate_report st;
  mret (fst out).

Definition main (req : HttpRequest) : Py HttpResponse :=
  print [VStr "🔥 LangGraph agent invoked"];;
  let user_question :=
    match params req !! "question" with
    | Some q => q
    | None => "Explore my Azure costs"
    end in
  result ← app_invoke {["user_question" := VStr user_question]};
  save_state_to_blob result;;
  mret {| body := json_dumps E 2 result;
          mimetype := "application/json";
          status_code := 200 |}.

End Agent.

(** ** Vocabulary of the statements *)

(** Python's numbers among the values. *)
Definition is_number (x : value) : Prop :=
  match x with
  | VBool _ | VInt _ | VFloat _ => True
  | _ => False
  end.

(** [exceeds x n]: the number [x] is greater than the integer [n] in the
    mathematical order; plus infinity exceeds every integer, a NaN and
    minus infinity exceed none. *)
Definition exceeds (x : value) (n : Z) : Prop :=
  match x with
  | VBool b => n < Z.b2z b
  | VInt z => n < z
  | VFloat (S754_infinity neg) => neg = false
  | VFloat f =>
      match Float.to_Q f with
      | Some q => (inject_Z n < q)%Q
      | None => False
      end
  | _ => False
  end.

(** [writes_only key st st']: going from [st] to [st'] sets [key] and
    changes no other key. *)
Definition writes_only (key : string) (st st' : state) : Prop :=
  is_Some (st' !! key) /\ forall k, k <> key -> st' !! k = st !! k.

(** The field of a report dict. *)
Definition field (report : value) (key : string) : option value :=
  match report with
  | VDict d => Dict.get d key
  | _ => None
  end.

Definition field_names (report : value) : list string :=
  match report with
  | VDict d => Dict.keys d
  | _ => []
  end.

(** The two shapes the specification gives an optimisation result. *)
Definition structured_keys : list string :=
  ["resource"; "recommended_change"; "estimated_monthly_savings";
   "risk_level"].

Definition is_structured (v : value) : Prop :=
  exists d, v = VDict d /\
    forall k, In k (Dict.keys d) <-> In k structured_keys.

Definition fallback (raw_text : value) : value :=
  VDict [("raw_output", raw_text)].

(** The question [main] passes on for a request. *)
Definition asked (req : HttpRequest) : string :=
  match params req !! "question" with
  | Some q => q
  | None => "Explore my Azure costs"
  end.

(** The dict [main] hands to the graph, and the state the first two
    nodes make of it. *)
Definition initial (question : string) : state :=
  {["user_question" := VStr question]}.

Definition analysed (question : string) : state :=
  <["anomaly_detected" := VBool false]>
    (<["cost_data" := cost_observation]> (initial question)).

(** The world after the first [print] of [main]. *)
Definition started (w : World) : World :=
  {| clock_reads := clock_reads w;
     trace := trace w ++ [Printed [VStr "🔥 LangGraph agent invoked"]] |}.

(** The world after one reading of the clock. *)
Definition tick (w : World) : World :=
  {| clock_reads := S (clock_reads w); trace := trace w |}.

(** The name [save_state_to_blob] gives the blob in world [w]. *)
Definition blob_name_at (E : Env) (w : World) : string :=
  "agent-report-" ++ utcnow_isoformat E (clock_reads w) ++ ".json".

(** The report [generate_report] builds from state [st] in world [w]. *)
Definition report_of (E : Env) (st : state) (w : World) : value :=
  VDict [("timestamp", VStr (utcnow_isoformat E (clock_reads w)));
         ("cost_data", get_or st "cost_data" VNone);
         ("anomaly_detected", get_or st "anomaly_detected" VNone);
         ("optimizations", get_or st "optimizations" VNone)].

Definition is_llm_call (ev : event) : bool :=
  match ev with LlmInvoked _ _ => true | _ => false end.

Definition is_upload (ev : event) : bool :=
  match ev with BlobUploaded _ _ _ _ => true | _ => false end.

(** The values the decoder builds: scalars, lists of such values, and
    dicts of such values with pairwise distinct keys. *)
Inductive json_value : value -> Prop :=
  | json_none : json_value VNone
  | json_bool b : json_value (VBool b)
  | json_int z : json_value (VInt z)
  | json_float f : json_value (VFloat f)
  | json_str s : json_value (VStr s)
  | json_list l : Forall json_value l -> json_value (VList l)
  | json_dict d :
      List.NoDup (Dict.keys d) ->
      Forall (fun kv => json_value (snd kv)) d ->
      json_value (VDict d).

(** ** Scripted environments for the examples *)

Module Script.

(** CPython's defaults: a recursion limit of 1000, of which a handful of
    frames are in use when the decoder starts, and at most 4300 digits in
    an int. *)
Definition defaults : Json.limits :=
  {| Json.max_depth := 990; Json.max_str_digits := 4300 |}.

Definition text_reply (text : string) : result Response :=
  Ok {| content := Some (VStr text); str_form := "AIMessage" |}.

(** The model answers [reply], the upload answers [storage], the clock
    reads a fixed instant and the two printers give a fixed text. *)
Definition env (reply : result Response) (storage : result unit) : Env :=
  {| llm_invoke := fun _ _ => reply;
     connect_storage := fun _ => Ok tt;
     upload_blob := fun _ _ _ _ => storage;
     utcnow_isoformat := fun _ => "2024-05-01T12:00:00.000000";
     py_str := fun _ => "{...}";
     json_dumps := fun _ _ => "{...}";
     interpreter := defaults |}.

Definition world : World := {| clock_reads := 0; trace := [] |}.

Definition no_question : HttpRequest := {| params := ∅ |}.

Definition fetched : state := {["cost_data" := cost_observation]}.

(** A run in which the model answers with a list and the upload is
    refused: the report the graph returns and the world it leaves. *)
Definition refused : Env :=
  env (text_reply "[]") (Raise (ServiceError "upload refused")).

Definition report : value :=
  Eval vm_compute in
    match fst (app_invoke refused (initial (asked no_question))
                 (started world)) with
    | Ok r => r
    | Raise _ => VNone
    end.

Definition after_graph : World :=
  Eval vm_compute in
    snd (app_invoke refused (initial (asked no_question)) (started world)).

(** A run in which every service answers. *)
Definition served : Env := env (text_reply "[]") (Ok tt).

Definition response : HttpResponse :=
  {| body := "{...}"; mimetype := "application/json"; status_code := 200 |}.

Definition after_request : World :=
  Eval vm_compute in snd (main served no_question world).

End Script.

(** ** Vocabulary of the further properties *)

(** What the advisor leaves under [optimizations] for a textual reply. *)
Definition stored_reply (E : Env) (text : string) : value :=
  match Json.loads (interpreter E) text with
  | Ok v => v
  | Raise _ => fallback (VStr text)
  end.

(** The exception of the decoder on [text] that the handler lets
    through, if there is one: anything but a [JSONDecodeError]. *)
Definition escapes (E : Env) (text : string) : option exn :=
  match Json.loads (interpreter E) text with
  | Ok _ => None
  | Raise JSONDecodeError => None
  | Raise e => Some e
  end.

(** What the advisor prints before the reply. *)
Definition reply_label : value := VStr "📝 Raw LLM output:".

(** The report of a request that started in world [w] and whose model
    reply was [text]. *)
Definition final_report (E : Env) (w : World) (text : string) : value :=
  VDict [("timestamp", VStr (utcnow_isoformat E (clock_reads w)));
         ("cost_data", cost_observation);
         ("anomaly_detected", VBool false);
         ("optimizations", stored_reply E text)].

(** The prompt [main] sends for a question. *)
Definition prompt_for (E : Env) (question : string) : string :=
  prompt_head ++ py_str E cost_observation
  ++ prompt_question_label ++ question ++ prompt_tail.

(** The characters a JSON value can begin with for the decoder: a quote,
    a brace, a bracket, a minus sign, a digit, or the first letter of
    [null], [true], [false], [NaN], [Infinity]. *)
Definition can_start_value (c : ascii) : bool :=
  Json.is_digit c
  || existsb (Ascii.eqb c)
       [Json.quote; "{"; "["; "-"; "n"; "t"; "f"; "N"; "I"]%char.

(** The worlds a request that started in [w] goes through: after the
    model was called, after its reply [raw] was printed, and after the
    upload of the report for the reply [text]. *)
Definition called (E : Env) (req : HttpRequest) (w : World) : World :=
  {| clock_reads := clock_reads w;
     trace := trace w
              ++ [Printed [VStr "🔥 LangGraph agent invoked"];
                  LlmInvoked llm (prompt_for E (asked req))] |}.

Definition answered (E : Env) (req : HttpRequest) (w : World) (raw : value)
  : World :=
  {| clock_reads := clock_reads w;
     trace := trace (called E req w)
              ++ [Printed [VStr "📝 Raw LLM output:"; raw]] |}.

Definition aborted (E : Env) (req : HttpRequest) (w : World) : World :=
  {| clock_reads := clock_reads w;
     trace := trace (called E req w) ++ [PrintAborted [reply_label]] |}.

Definition upload_name (E : Env) (w : World) : string :=
  "agent-report-" ++ utcnow_isoformat E (S (clock_reads w)) ++ ".json".

Definition uploaded (E : Env) (req : HttpRequest) (w : World) (text : string)
  : World :=
  {| clock_reads := S (S (clock_reads w));
     trace := trace (answered E req w (VStr text))
              ++ [BlobUploaded BLOB_CONTAINER_NAME (upload_name E w)
                    (json_dumps E 2 (final_report E w text)) true] |}.

(** The three keys the nodes write. *)
Definition written_keys : gset string :=
  {["cost_data"; "anomaly_detected"; "optimizations"]}.

(** ** Further scripted runs *)

Module Case.

Definition reply (text : string) : Response :=
  {| content := Some (VStr text); str_form := "AIMessage" |}.

(** A request that carries an empty question. *)
Definition empty_question : HttpRequest :=
  {| params := {["question" := ""]} |}.

(** The model call is refused. *)
Definition quota : Env :=
  Script.env (Raise (ServiceError "quota exceeded")) (Ok tt).

(** The model answers with a list of content blocks instead of a text. *)
Definition blocks : Response :=
  {| content := Some (VList [VStr "part"]); str_form := "AIMessage" |}.

Definition multimodal : Env := Script.env (Ok blocks) (Ok tt).

(** The storage account cannot be reached. *)
Definition offline : Env :=
  {| llm_invoke := fun _ _ => Ok (reply "[]");
     connect_storage := fun _ => Raise (ServiceError "bad connection string");
     upload_blob := fun _ _ _ _ => Ok tt;
     utcnow_isoformat := fun _ => "2024-05-01T12:00:00.000000";
     py_str := fun _ => "{...}";
     json_dumps := fun _ _ => "{...}";
     interpreter := Script.defaults |}.

Definition offline_report : value :=
  Eval vm_compute in
    match fst (app_invoke offline (initial (asked Script.no_question))
                 (started Script.world)) with
    | Ok r => r
    | Raise _ => VNone
    end.

Definition offline_world : World :=
  Eval vm_compute in
    snd (app_invoke offline (initial (asked Script.no_question))
           (started Script.world)).

(** Three replies the handler does not survive: an int of 4301 digits,
    1000 opening brackets, and the text of the one code point U+D800. *)
Definition long_int : string := Json.copies 4301 "1".

Definition deep : string := Json.copies 1000 "[".

Definition lone_surrogate : string :=
  String (Json.byte 237)
    (String (Json.byte 160) (String (Json.byte 128) EmptyString)).

Definition replying (text : string) : Env :=
  Script.env (Script.text_reply text) (Ok tt).

(** A reply wrapped in a code fence. *)
Definition fenced : string := "```json {} ```".

(** The states of a run of the three nodes on the dict of [main]. *)
Definition asked_state : state := initial "Explore my Azure costs".

Definition advised : state :=
  <["optimizations" := VList []]> (analysed "Explore my Azure costs").

Definition advised_world : World :=
  Eval vm_compute in
    snd (simulate_optimizations Script.served
           (analysed "Explore my Azure costs") Script.world).

Definition served_world : World :=
  Eval vm_compute in snd (main Script.served Script.no_question Script.world).

End Case.

(** ** Unfolding the monad *)

Lemma bind_ok {A B : Type} (m : Py A) (f : A -> Py B) (w w' : World) (a : A) :
  m w = (Ok a, w') -> (m ≫= f) w = f a w'.
Proof. intros H. unfold mbind, Py_bind. now rewrite H. Qed.

Lemma bind_raise {A B : Type} (m : Py A) (f : A -> Py B) (w w' : World)
    (e : exn) :
  m w = (Raise e, w') -> (m ≫= f) w = (Raise e, w').
Proof. intros H. unfold mbind, Py_bind. now rewrite H. Qed.

Lemma getitem_some (st : state) (key : string) (v : value) (w : World) :
  st !! key = Some v -> getitem st key w = (Ok v, w).
Proof. intros H. unfold getitem. now rewrite H. Qed.

Lemma getitem_none (st : state) (key : string) (w : World) :
  st !! key = None -> getitem st key w = (Raise (KeyError key), w).
Proof. intros H. unfold getitem. now rewrite H. Qed.

Ltac py_unfold :=
  unfold mbind, Py_bind, mret, Py_ret, raise, lift, record in *.

(** ** The comparison with the threshold *)

Module FloatFacts.

(** The exact comparison agrees with the order of the rationals. *)
Lemma gt_int_finite (neg : bool) (m : positive) (e n : Z) (q : Q) :
  Float.to_Q (S754_finite neg m e) = Some q ->
  Float.gt_int (S754_finite neg m e) n = true <-> (inject_Z n < q)%Q.
Proof.
  unfold Float.to_Q, Float.gt_int. intros [= <-].
  destruct (0 <=? e) eqn:He.
  - rewrite Z.ltb_lt. unfold Qlt, inject_Z. simpl. lia.
  - rewrite Z.ltb_lt. unfold Qlt, inject_Z. simpl.
    assert (0 < 2 ^ (- e)) by (apply Z.pow_pos_nonneg; lia).
    rewrite Z2Pos.id by assumption. lia.
Qed.

Lemma gt_int_exceeds (f : spec_float) (n : Z) :
  Float.gt_int f n = true <-> exceeds (VFloat f) n.
Proof.
  destruct f as [s | s | | s m e].
  - simpl. rewrite Z.ltb_lt. unfold Qlt, inject_Z. simpl. lia.
  - simpl. destruct s; simpl; intuition congruence.
  - simpl. intuition congruence.
  - unfold exceeds.
    destruct (Float.to_Q (S754_finite s m e)) as [q |] eqn:Hq.
    + now apply gt_int_finite.
    + discriminate Hq.
Qed.

(** The float the literal [2.35] denotes, and its distance to 2.35:
    less than half a unit in the last place. *)
Lemma literal_2_35 :
  Float.of_decimal false 235 (-2)
  = S754_finite false 5291729562160333 (-51).
Proof. vm_compute. reflexivity. Qed.

Lemma literal_2_35_value :
  exists q, Float.to_Q (Float.of_decimal false 235 (-2)) = Some q /\
    ((235 # 100) - (1 # 2 ^ 52) < q)%Q /\ (q < (235 # 100) + (1 # 2 ^ 52))%Q.
Proof.
  rewrite literal_2_35. eexists. split; [reflexivity |].
  split; vm_compute; reflexivity.
Qed.

(** The float the literal [5.00] denotes is the integer five. *)
Lemma literal_5_00 :
  exists q, Float.to_Q (Float.of_decimal false 500 (-2)) = Some q /\
    (q == 5 # 1)%Q.
Proof. eexists. split; [vm_compute; reflexivity |]. reflexivity. Qed.

End FloatFacts.

Lemma gt_int_number (x : value) (n : Z) (w : World) :
  is_number x ->
  exists flag, gt_int x n w = (Ok flag, w) /\ (flag = true <-> exceeds x n).
Proof.
  destruct x; simpl; try contradiction; intros _.
  - eexists. split; [reflexivity |]. apply Z.ltb_lt.
  - eexists. split; [reflexivity |]. apply Z.ltb_lt.
  - eexists. split; [reflexivity |]. apply FloatFacts.gt_int_exceeds.
Qed.

Lemma detect_anomaly_run (st : state) (d : list (string * value))
    (cost : value) (w : World) :
  st !! "cost_data" = Some (VDict d) ->
  Dict.get d "monthly_cost_usd" = Some cost ->
  is_number cost ->
  exists flag,
    detect_anomaly st w = (Ok (<["anomaly_detected" := VBool flag]> st), w)
    /\ (flag = true <-> exceeds cost 5).
Proof.
  intros Hcd Hcost Hnum.
  destruct (gt_int_number cost 5 w Hnum) as (flag & Hgt & Hiff).
  exists flag. split; [| exact Hiff].
  unfold detect_anomaly.
  rewrite (bind_ok _ _ _ _ _ (getitem_some _ _ _ w Hcd)).
  unfold subscript. rewrite Hcost.
  py_unfold. now rewrite Hgt.
Qed.

(** ** AnomalyDetector *)

(** C1. On every state whose [cost_data] is a cost observation (a dict
    whose [monthly_cost_usd] is a number), [detect_anomaly] returns the
    state with [anomaly_detected] set to a boolean that is true exactly
    when the monthly cost is greater than 5; nothing else happens. A cost
    of exactly 5 (the int or the float 5.00) gives false. *)
Theorem detect_anomaly_threshold (st : state) (d : list (string * value))
    (cost : value) (w : World) :
  st !! "cost_data" = Some (VDict d) ->
  Dict.get d "monthly_cost_usd" = Some cost ->
  is_number cost ->
  exists flag,
    detect_anomaly st w = (Ok (<["anomaly_detected" := VBool flag]> st), w)
    /\ (flag = true <-> exceeds cost 5)
    /\ (flag = false <-> ~ exceeds cost 5)
    /\ (cost = VInt 5 \/ cost = VFloat (Float.of_decimal false 500 (-2)) ->
        flag = false).
Proof.
  intros Hcd Hcost Hnum.
  destruct (detect_anomaly_run st d cost w Hcd Hcost Hnum)
    as (flag & Hrun & Hiff).
  exists flag. split; [exact Hrun |]. split; [exact Hiff |].
  assert (Hneg : flag = false <-> ~ exceeds cost 5).
  { destruct flag; split; intros H; try discriminate; try reflexivity.
    - exfalso. apply H. now apply Hiff.
    - intros Hex. apply Hiff in Hex. discriminate. }
  split; [exact Hneg |].
  intros [-> | ->]; apply Hneg.
  - simpl. lia.
  - unfold exceeds. vm_compute. intros H. discriminate H.
Qed.

Lemma detect_anomaly_threshold_witness :
  exists flag,
    detect_anomaly Script.fetched Script.world
    = (Ok (<["anomaly_detected" := VBool flag]> Script.fetched), Script.world)
    /\ (flag = true <-> exceeds (VFloat (Float.of_decimal false 235 (-2))) 5)
    /\ (flag = false <-> ~ exceeds (VFloat (Float.of_decimal false 235 (-2))) 5)
    /\ (VFloat (Float.of_decimal false 235 (-2)) = VInt 5
        \/ VFloat (Float.of_decimal false 235 (-2))
           = VFloat (Float.of_decimal false 500 (-2)) ->
        flag = false).
Proof.
  apply (detect_anomaly_threshold Script.fetched
           [("resource", VStr "Azure Storage Account");
            ("monthly_cost_usd", VFloat (Float.of_decimal false 235 (-2)));
            ("currency", VStr "USD")]).
  - reflexivity.
  - reflexivity.
  - simpl. exact I.
Defined.

(** C9. On a state without [cost_data], [detect_anomaly] raises the
    KeyError for that key (the specification's MissingFieldError), writes
    nothing and makes no outbound call. When [cost_data] is present that
    error does not occur, and when it is a cost observation the call
    returns a state. *)
Theorem detect_anomaly_missing_cost_data (st : state) (w : World) :
  (st !! "cost_data" = None ->
   detect_anomaly st w = (Raise (KeyError "cost_data"), w))
  /\ (is_Some (st !! "cost_data") ->
      fst (detect_anomaly st w) <> Raise (KeyError "cost_data"))
  /\ (forall d cost,
        st !! "cost_data" = Some (VDict d) ->
        Dict.get d "monthly_cost_usd" = Some cost ->
        is_number cost ->
        exists st', detect_anomaly st w = (Ok st', w)).
Proof.
  split; [| split].
  - intros Hnone. unfold detect_anomaly.
    now rewrite (bind_raise _ _ _ _ _ (getitem_none _ _ w Hnone)).
  - intros [cd Hcd]. unfold detect_anomaly.
    rewrite (bind_ok _ _ _ _ _ (getitem_some _ _ _ w Hcd)).
    unfold subscript. py_unfold.
    destruct cd as [| b | z | f | s | l | d]; simpl; try discriminate.
    destruct (Dict.get d "monthly_cost_usd") as [cost |] eqn:Hcost.
    + destruct cost; simpl; discriminate.
    + simpl. intros [= H].
  - intros d cost Hcd Hcost Hnum.
    destruct (detect_anomaly_run st d cost w Hcd Hcost Hnum)
      as (flag & Hrun & _).
    eauto.
Qed.

Lemma detect_anomaly_missing_cost_data_witness :
  detect_anomaly ∅ Script.world
  = (Raise (KeyError "cost_data"), Script.world)
  /\ fst (detect_anomaly Script.fetched Script.world)
     <> Raise (KeyError "cost_data")
  /\ exists st', detect_anomaly Script.fetched Script.world
                 = (Ok st', Script.world).
Proof.
  split; [| split].
  - apply (detect_anomaly_missing_cost_data ∅ Script.world). reflexivity.
  - apply (detect_anomaly_missing_cost_data Script.fetched Script.world).
    eexists. reflexivity.
  - apply (proj2 (proj2 (detect_anomaly_missing_cost_data
                           Script.fetched Script.world))
             [("resource", VStr "Azure Storage Account");
              ("monthly_cost_usd", VFloat (Float.of_decimal false 235 (-2)));
              ("currency", VStr "USD")]
             (VFloat (Float.of_decimal false 235 (-2)))).
    + reflexivity.
    + reflexivity.
    + simpl. exact I.
Defined.

(** ** CostFetcher *)

(** C2. [fetch_cost_data] is a function of its input that never raises and
    touches nothing outside the state: on every state and world it returns
    the state with [cost_data] set to the same observation, resource
    "Azure Storage Account", monthly cost the float of the literal 2.35,
    currency "USD", whatever the state held before. *)
Theorem fetch_cost_data_fixed (st : state) (w : World) :
  fetch_cost_data st w = (Ok (<["cost_data" := cost_observation]> st), w)
  /\ (<["cost_data" := cost_observation]> st) !! "cost_data"
     = Some (VDict [("resource", VStr "Azure Storage Account");
                    ("monthly_cost_usd",
                     VFloat (Float.of_decimal false 235 (-2)));
                    ("currency", VStr "USD")]).
Proof.
  split.
  - reflexivity.
  - now rewrite lookup_insert_eq.
Qed.

(** ** ReportBuilder *)

(** C6. [generate_report] never raises. Its dict has the four fields
    [timestamp], [cost_data], [anomaly_detected], [optimizations] and no
    other; the timestamp is the clock's reading, each of the other three is
    the value the state has under that key, or None when the state lacks
    the key; the state dict is left as it was and no outbound call is
    made. *)
Theorem generate_report_fields (E : Env) (st : state) (w : World) :
  exists report w',
    generate_report E st w = (Ok (report, st), w')
    /\ trace w' = trace w
    /\ field_names report
       = ["timestamp"; "cost_data"; "anomaly_detected"; "optimizations"]
    /\ field report "timestamp"
       = Some (VStr (utcnow_isoformat E (clock_reads w)))
    /\ forall key,
         In key ["cost_data"; "anomaly_detected"; "optimizations"] ->
         (forall v, st !! key = Some v -> field report key = Some v)
         /\ (st !! key = None -> field report key = Some VNone).
Proof.
  eexists. eexists. split; [reflexivity |].
  split; [reflexivity |]. split; [reflexivity |]. split; [reflexivity |].
  intros key Hkey. simpl in Hkey.
  destruct Hkey as [<- | [<- | [<- | []]]];
    (split; [intros v Hv | intros Hv]); simpl; unfold get_or;
    now rewrite Hv.
Qed.

(** ** The frame of the three state-threading nodes *)

Lemma writes_only_insert (key : string) (v : value) (st : state) :
  writes_only key st (<[key := v]> st) /\ dom st ⊆ dom (<[key := v]> st).
Proof.
  split; [split |].
  - rewrite lookup_insert_eq. eauto.
  - intros k Hk. now rewrite lookup_insert_ne.
  - rewrite dom_insert_L. set_solver.
Qed.

Lemma detect_anomaly_ok (st st' : state) (w w' : World) :
  detect_anomaly st w = (Ok st', w') ->
  exists flag, st' = <["anomaly_detected" := VBool flag]> st.
Proof.
  unfold detect_anomaly, getitem, subscript, gt_int. py_unfold.
  destruct (st !! "cost_data") as [cd |]; [| discriminate].
  destruct cd as [| | | | | | d]; try discriminate.
  destruct (Dict.get d "monthly_cost_usd") as [cost |]; [| discriminate].
  destruct cost; try discriminate; intros [= <- _]; eauto.
Qed.

Lemma simulate_optimizations_ok (E : Env) (st st' : state) (w w' : World) :
  simulate_optimizations E st w = (Ok st', w') ->
  exists v, st' = <["optimizations" := v]> st.
Proof.
  unfold simulate_optimizations, getitem, invoke, print, try_except,
    json_loads.
  py_unfold.
  destruct (st !! "cost_data") as [cd |]; [| discriminate].
  destruct (llm_invoke E _ _) as [resp | e]; [| discriminate].
  destruct (forallb printable _); simpl; [| discriminate].
  destruct (getattr_content resp) as [| | | | text | |];
    try discriminate.
  destruct (Json.loads (interpreter E) text) as [v | e]; simpl.
  - intros [= <- _]. eauto.
  - destruct e; simpl; try discriminate. intros [= <- _]. eauto.
Qed.

(** C8. Whenever one of the three nodes returns, the state it returns is
    the input state with the node's own key set ([cost_data],
    [anomaly_detected], [optimizations] in that order) and every other
    key as it was; so the keys of the input are keys of the output. *)
Theorem stages_write_only_their_key (E : Env) (st st' : state)
    (w w' : World) :
  (fetch_cost_data st w = (Ok st', w') ->
   writes_only "cost_data" st st' /\ dom st ⊆ dom st')
  /\ (detect_anomaly st w = (Ok st', w') ->
      writes_only "anomaly_detected" st st' /\ dom st ⊆ dom st')
  /\ (simulate_optimizations E st w = (Ok st', w') ->
      writes_only "optimizations" st st' /\ dom st ⊆ dom st').
Proof.
  split; [| split].
  - intros [= <- _]. apply writes_only_insert.
  - intros H. apply detect_anomaly_ok in H as [flag ->].
    apply writes_only_insert.
  - intros H. apply simulate_optimizations_ok in H as [v ->].
    apply writes_only_insert.
Qed.

Lemma stages_write_only_their_key_witness :
  (writes_only "cost_data" ∅ Script.fetched
   /\ dom (∅ : state) ⊆ dom Script.fetched)
  /\ (writes_only "anomaly_detected" Script.fetched
        (<["anomaly_detected" := VBool false]> Script.fetched)
      /\ dom Script.fetched
         ⊆ dom (<["anomaly_detected" := VBool false]> Script.fetched))
  /\ (writes_only "optimizations" Script.fetched
        (<["optimizations" := VList []]> Script.fetched)
      /\ dom Script.fetched
         ⊆ dom (<["optimizations" := VList []]> Script.fetched)).
Proof.
  split; [| split].
  - apply (proj1 (stages_write_only_their_key
                    (Script.env (Script.text_reply "[]") (Ok tt))
                    ∅ Script.fetched Script.world Script.world)).
    reflexivity.
  - apply (proj1 (proj2 (stages_write_only_their_key
                    (Script.env (Script.text_reply "[]") (Ok tt))
                    Script.fetched
                    (<["anomaly_detected" := VBool false]> Script.fetched)
                    Script.world Script.world))).
    reflexivity.
  - apply (proj2 (proj2 (stages_write_only_their_key
                    (Script.env (Script.text_reply "[]") (Ok tt))
                    Script.fetched
                    (<["optimizations" := VList []]> Script.fetched)
                    Script.world
                    (snd (simulate_optimizations
                            (Script.env (Script.text_reply "[]") (Ok tt))
                            Script.fetched Script.world))))).
    reflexivity.
Defined.

(** ** The decoder terminates and builds JSON values *)

Module JsonFacts.

Import Json.

Ltac break_match H :=
  match type of H with
  | context [match ?x with _ => _ end] =>
      destruct x eqn:?; try discriminate H
  end.

Ltac break_all :=
  repeat match goal with
    | H : context [match ?x with _ => _ end] |- _ =>
        destruct x eqn:?; try discriminate H
    end.

Lemma skip_whitespace_length (s : string) :
  (String.length (skip_whitespace s) <= String.length s)%nat.
Proof.
  induction s as [| c s IH]; simpl; [lia |].
  destruct (is_whitespace c); simpl; lia.
Qed.

Lemma span_digits_length (s ds r : string) :
  span_digits s = (ds, r) -> (String.length r <= String.length s)%nat.
Proof.
  revert ds r. induction s as [| c s IH]; simpl; intros ds r H.
  - injection H as <- <-. simpl. lia.
  - destruct (is_digit c).
    + destruct (span_digits s) as [ds' r'] eqn:Hs.
      injection H as <- <-. specialize (IH _ _ eq_refl). lia.
    + injection H as <- <-. simpl. lia.
Qed.

Lemma strip_prefix_length (p s r : string) :
  strip_prefix p s = Some r ->
  (String.length r + String.length p = String.length s)%nat.
Proof.
  revert s. induction p as [| a p IH]; intros s H; simpl in H.
  - injection H as <-. simpl. lia.
  - destruct s as [| b s]; [discriminate |].
    destruct (Ascii.eqb a b); [| discriminate].
    apply IH in H. simpl. lia.
Qed.

Lemma emit_some (chunk : string) (tail : option (string * string))
    (str rest : string) :
  emit chunk tail = Some (str, rest) ->
  exists str', tail = Some (str', rest).
Proof.
  unfold emit. destruct tail as [[str' rest'] |]; [| discriminate].
  intros [= _ <-]. eauto.
Qed.

Lemma scanstring_shorter (n : nat) :
  forall s str r,
    (String.length s <= n)%nat ->
    scanstring s = Some (str, r) ->
    (String.length r < String.length s)%nat.
Proof.
  induction n as [| n IH]; intros s str r Hn H.
  - destruct s; [discriminate | simpl in Hn; lia].
  - destruct s as [| c rest]; [discriminate |].
    simpl in H. simpl in Hn.
    repeat break_match H;
      try (injection H as <- <-; simpl; lia);
      try (apply emit_some in H as [str' H]; apply IH in H;
           simpl in *; lia).
Qed.

Lemma scanstring_length (s str r : string) :
  scanstring s = Some (str, r) ->
  (String.length r < String.length s)%nat.
Proof. apply (scanstring_shorter (String.length s)). lia. Qed.

Lemma constant_length (s : string) (v : value) (r : string) :
  constant s = Some (v, r) -> (String.length r < String.length s)%nat.
Proof.
  unfold constant. intros H.
  repeat break_match H; injection H as <- <-;
    match goal with
    | Hp : strip_prefix _ _ = Some _ |- _ =>
        apply strip_prefix_length in Hp; simpl in Hp; lia
    end.
Qed.

Lemma scan_fraction_length (s : string) (f : option string) (r : string) :
  scan_fraction s = (f, r) -> (String.length r <= String.length s)%nat.
Proof.
  unfold scan_fraction. intros H.
  repeat break_match H; injection H as <- <-; simpl; try lia.
  match goal with
  | Hs : span_digits _ = _ |- _ => apply span_digits_length in Hs; lia
  end.
Qed.

Lemma scan_exponent_length (s : string) (x : option Z) (r : string) :
  scan_exponent s = (x, r) -> (String.length r <= String.length s)%nat.
Proof.
  unfold scan_exponent. intros H.
  break_all; simplify_eq; simpl; try lia;
    match goal with
    | Hs : span_digits _ = _ |- _ =>
        apply span_digits_length in Hs; simpl in *; lia
    end.
Qed.

Lemma match_number_length (lim : limits) (s : string) (v : value)
    (r : string) :
  match_number lim s = Scanned v r ->
  (String.length r < String.length s)%nat.
Proof.
  unfold match_number. intros H.
  break_all; simplify_eq;
    repeat match goal with
      | Hs : span_digits _ = _ |- _ => apply span_digits_length in Hs
      | Hs : scan_fraction _ = _ |- _ => apply scan_fraction_length in Hs
      | Hs : scan_exponent _ = _ |- _ => apply scan_exponent_length in Hs
      end;
    simpl in *; lia.
Qed.

Lemma match_number_fuel (lim : limits) (s : string) :
  match_number lim s <> Exhausted.
Proof.
  unfold match_number. intros H. break_all; discriminate H.
Qed.

Ltac lengths :=
  repeat match goal with
    | H : skip_whitespace _ = String _ _ |- _ =>
        apply (f_equal String.length) in H; simpl in H
    | H : scanstring _ = Some _ |- _ => apply scanstring_length in H
    | H : constant _ = Some _ |- _ => apply constant_length in H
    | H : match_number _ _ = Scanned _ _ |- _ =>
        apply match_number_length in H
    end;
  repeat match goal with
    | H : context [String.length (skip_whitespace ?x)] |- _ =>
        lazymatch goal with
        | _ : (String.length (skip_whitespace x) <= String.length x)%nat
          |- _ => fail
        | _ => pose proof (skip_whitespace_length x)
        end
    | |- context [String.length (skip_whitespace ?x)] =>
        lazymatch goal with
        | _ : (String.length (skip_whitespace x) <= String.length x)%nat
          |- _ => fail
        | _ => pose proof (skip_whitespace_length x)
        end
    end.

(** Every successful scan consumes at least one character. *)
Lemma scan_shorter (fuel : nat) :
  (forall lim depth s v r,
      scan_once fuel lim depth s = Scanned v r ->
      (String.length r < String.length s)%nat)
  /\ (forall lim depth acc s v r,
        array_items fuel lim depth acc s = Scanned v r ->
        (String.length r < String.length s)%nat)
  /\ (forall lim depth acc s v r,
        object_items fuel lim depth acc s = Scanned v r ->
        (String.length r < String.length s)%nat).
Proof.
  induction fuel as [| fuel (IH1 & IH2 & IH3)].
  - repeat split; intros; discriminate.
  - split; [| split].
    + intros lim depth s v r H. simpl in H.
      destruct s as [| c rest]; [discriminate |].
      break_all; simplify_eq;
        try (match goal with
             | H : object_items _ _ _ _ _ = Scanned _ _ |- _ => apply IH3 in H
             | H : array_items _ _ _ _ _ = Scanned _ _ |- _ => apply IH2 in H
             end);
        lengths; simpl in *; lia.
    + intros lim depth acc s v r H. simpl in H.
      break_all; simplify_eq;
        repeat match goal with
          | H : scan_once _ _ _ _ = Scanned _ _ |- _ => apply IH1 in H
          | H : array_items _ _ _ _ _ = Scanned _ _ |- _ => apply IH2 in H
          end;
        lengths; simpl in *; lia.
    + intros lim depth acc s v r H. simpl in H.
      break_all; simplify_eq;
        repeat match goal with
          | H : scan_once _ _ _ _ = Scanned _ _ |- _ => apply IH1 in H
          | H : object_items _ _ _ _ _ = Scanned _ _ |- _ => apply IH3 in H
          end;
        lengths; simpl in *; lia.
Qed.

(** With fuel above twice the length of the input the scan never runs
    out of it. *)
Lemma scan_fuel (fuel : nat) :
  (forall lim depth s,
      (2 * String.length s + 1 <= fuel)%nat ->
      scan_once fuel lim depth s <> Exhausted)
  /\ (forall lim depth acc s,
        (2 * String.length s + 2 <= fuel)%nat ->
        array_items fuel lim depth acc s <> Exhausted)
  /\ (forall lim depth acc s,
        (2 * String.length s + 2 <= fuel)%nat ->
        object_items fuel lim depth acc s <> Exhausted).
Proof.
  induction fuel as [| fuel (IH1 & IH2 & IH3)].
  - repeat split; intros; lia.
  - destruct (scan_shorter fuel) as (L1 & L2 & L3).
    split; [| split].
    + intros lim depth s Hf H. simpl in H.
      destruct s as [| c rest]; [discriminate |].
      break_all; simplify_eq;
        match goal with
        | H : object_items _ _ _ _ ?x = Exhausted |- _ =>
            apply (IH3 _ _ _ x) in H; [exact H |]
        | H : array_items _ _ _ _ ?x = Exhausted |- _ =>
            apply (IH2 _ _ _ x) in H; [exact H |]
        | H : match_number _ _ = Exhausted |- _ =>
            now apply match_number_fuel in H
        end;
        lengths; simpl in *; lia.
    + intros lim depth acc s Hf H. simpl in H.
      break_all; simplify_eq;
        repeat match goal with
          | H : scan_once _ _ _ _ = Scanned _ _ |- _ => apply L1 in H
          end;
        match goal with
        | H : scan_once _ _ _ ?x = Exhausted |- _ =>
            apply (IH1 _ _ x) in H; [exact H |]
        | H : array_items _ _ _ _ ?x = Exhausted |- _ =>
            apply (IH2 _ _ _ x) in H; [exact H |]
        end;
        lengths; simpl in *; lia.
    + intros lim depth acc s Hf H. simpl in H.
      break_all; simplify_eq;
        repeat match goal with
          | H : scan_once _ _ _ _ = Scanned _ _ |- _ => apply L1 in H
          end;
        match goal with
        | H : scan_once _ _ _ ?x = Exhausted |- _ =>
            apply (IH1 _ _ x) in H; [exact H |]
        | H : object_items _ _ _ _ ?x = Exhausted |- _ =>
            apply (IH3 _ _ _ x) in H; [exact H |]
        end;
        lengths; simpl in *; lia.
Qed.

(** [decode] gives its scan enough fuel: its answer is a value or a
    refusal, on every text. *)
Lemma decode_total (lim : limits) (s : string) : decode lim s <> Exhausted.
Proof.
  unfold decode.
  destruct (scan_once (fuel_for s) lim (max_depth lim) (skip_whitespace s))
    as [v r | | e |] eqn:H.
  - destruct (skip_whitespace r); discriminate.
  - discriminate.
  - discriminate.
  - exfalso. revert H. apply (proj1 (scan_fuel (fuel_for s))).
    pose proof (skip_whitespace_length s). unfold fuel_for. lia.
Qed.

(** *** Dict updates keep the keys distinct *)

Lemma set_keys (d : list (string * value)) (k : string) (v : value)
    (k' : string) :
  In k' (Dict.keys (Dict.set d k v)) <-> k' = k \/ In k' (Dict.keys d).
Proof.
  induction d as [| [k0 v0] d IH]; simpl.
  - intuition congruence.
  - destruct (String.eqb k k0) eqn:Hk; simpl.
    + apply String.eqb_eq in Hk. subst k0. intuition congruence.
    + rewrite IH. intuition congruence.
Qed.

Lemma set_nodup (d : list (string * value)) (k : string) (v : value) :
  List.NoDup (Dict.keys d) -> List.NoDup (Dict.keys (Dict.set d k v)).
Proof.
  induction d as [| [k0 v0] d IH]; simpl; intros Hd.
  - constructor; [intros [] | constructor].
  - inversion Hd as [| ? ? Hnotin Hrest]; subst.
    destruct (String.eqb k k0) eqn:Hk; simpl.
    + apply String.eqb_eq in Hk. subst k0. now constructor.
    + constructor; [| now apply IH].
      rewrite set_keys. intros [-> | Hin]; [| contradiction].
      rewrite String.eqb_refl in Hk. discriminate.
Qed.

Lemma set_forall (P : value -> Prop) (d : list (string * value))
    (k : string) (v : value) :
  P v -> List.Forall (fun kv => P (snd kv)) d ->
  List.Forall (fun kv => P (snd kv)) (Dict.set d k v).
Proof.
  intros Hv. induction d as [| [k0 v0] d IH]; simpl; intros Hd.
  - now repeat constructor.
  - inversion Hd; subst.
    destruct (String.eqb k k0); constructor; auto.
Qed.

Lemma get_set_same (d : list (string * value)) (k : string) (v : value) :
  Dict.get (Dict.set d k v) k = Some v.
Proof.
  induction d as [| [k0 v0] d IH]; simpl.
  - now rewrite String.eqb_refl.
  - destruct (String.eqb k k0) eqn:Hk; simpl.
    + now rewrite String.eqb_refl.
    + now rewrite Hk.
Qed.

(** *** What the decoder builds *)

Lemma constant_json (s : string) (v : value) (r : string) :
  constant s = Some (v, r) -> json_value v.
Proof.
  unfold constant. intros H.
  repeat break_match H; injection H as <- <-; constructor.
Qed.

Lemma match_number_json (lim : limits) (s : string) (v : value)
    (r : string) :
  match_number lim s = Scanned v r -> json_value v.
Proof.
  unfold match_number. intros H.
  break_all; simplify_eq; constructor.
Qed.

Lemma scan_json (fuel : nat) :
  (forall lim depth s v r,
      scan_once fuel lim depth s = Scanned v r -> json_value v)
  /\ (forall lim depth acc s v r,
        array_items fuel lim depth acc s = Scanned v r ->
        List.Forall json_value acc -> json_value v)
  /\ (forall lim depth acc s v r,
        object_items fuel lim depth acc s = Scanned v r ->
        List.NoDup (Dict.keys acc) ->
        List.Forall (fun kv => json_value (snd kv)) acc ->
        json_value v).
Proof.
  induction fuel as [| fuel (IH1 & IH2 & IH3)].
  - repeat split; intros; discriminate.
  - split; [| split].
    + intros lim depth s v r H. simpl in H.
      destruct s as [| c rest]; [discriminate |].
      break_all; simplify_eq.
      * constructor.
      * constructor; constructor.
      * eapply IH3; [eassumption | constructor | constructor].
      * constructor. constructor.
      * eapply IH2; [eassumption | constructor].
      * eapply constant_json; eassumption.
      * eapply match_number_json; eassumption.
    + intros lim depth acc s v r H Hacc. simpl in H.
      assert (Hstep : forall x, json_value x ->
                List.Forall json_value (acc ++ [x])).
      { intros x Hx. apply List.Forall_app. split; [exact Hacc |].
        now repeat constructor. }
      break_all; simplify_eq.
      * constructor. apply Hstep. eapply IH1; eassumption.
      * eapply IH2; [eassumption |]. apply Hstep. eapply IH1; eassumption.
    + intros lim depth acc s v r H Hnd Hacc. simpl in H.
      break_all; simplify_eq.
      * constructor.
        -- now apply set_nodup.
        -- apply set_forall; [eapply IH1; eassumption | exact Hacc].
      * eapply IH3; [eassumption | |].
        -- now apply set_nodup.
        -- apply set_forall; [eapply IH1; eassumption | exact Hacc].
Qed.

(** Whatever [json.loads] returns is a JSON value. *)
Lemma loads_json (lim : limits) (s : string) (v : value) :
  loads lim s = Ok v -> json_value v.
Proof.
  unfold loads, decode. intros H.
  break_all; simplify_eq.
  eapply (proj1 (scan_json _)); eassumption.
Qed.

End JsonFacts.

(** ** OptimizationAdvisor *)

(** The two replies of the specification's test section. *)
Example loads_structured_reply :
  Json.loads Script.defaults (Json.dq
    "{'resource':'X','recommended_change':'Y','estimated_monthly_savings':1.2,'risk_level':'low'}")
  = Ok (VDict [("resource", VStr "X");
               ("recommended_change", VStr "Y");
               ("estimated_monthly_savings",
                VFloat (Float.of_decimal false 12 (-1)));
               ("risk_level", VStr "low")]).
Proof. vm_compute. reflexivity. Qed.

Example loads_plain_reply :
  Json.loads Script.defaults "I cannot help" = Raise JSONDecodeError.
Proof. vm_compute. reflexivity. Qed.

Lemma print_reply (raw : value) (w : World) :
  print [reply_label; raw] w
  = if printable raw
    then (Ok tt, {| clock_reads := clock_reads w;
                    trace := trace w ++ [Printed [reply_label; raw]] |})
    else (Raise UnicodeEncodeError,
          {| clock_reads := clock_reads w;
             trace := trace w ++ [PrintAborted [reply_label]] |}).
Proof.
  unfold print.
  change (forallb printable [reply_label; raw])
    with (printable raw && true)%bool.
  change (written_before [reply_label; raw])
    with (reply_label :: (if printable raw then [raw] else [])).
  rewrite andb_true_r.
  destruct (printable raw); reflexivity.
Qed.

(** The advisor on a state with [cost_data], by cases on the model's
    answer, on whether the reply can be printed and on the decoder. *)
Lemma simulate_optimizations_cases (E : Env) (st : state) (cd : value)
    (w : World) :
  st !! "cost_data" = Some cd ->
  simulate_optimizations E st w
  = let prompt :=
      prompt_text E cd (get_or st "user_question" (VStr default_question)) in
    let w1 := {| clock_reads := clock_reads w;
                 trace := trace w ++ [LlmInvoked llm prompt] |} in
    match llm_invoke E llm prompt with
    | Raise e => (Raise e, w1)
    | Ok resp =>
        let raw := getattr_content resp in
        if printable raw then
          let w2 := {| clock_reads := clock_reads w;
                       trace := trace w1 ++ [Printed [reply_label; raw]] |} in
          match raw with
          | VStr text =>
              match escapes E text with
              | Some e => (Raise e, w2)
              | None => (Ok (<["optimizations" := stored_reply E text]> st), w2)
              end
          | _ => (Raise TypeError, w2)
          end
        else (Raise UnicodeEncodeError,
              {| clock_reads := clock_reads w;
                 trace := trace w1 ++ [PrintAborted [reply_label]] |})
    end.
Proof.
  intros Hcd. unfold simulate_optimizations.
  rewrite (bind_ok _ _ _ _ _ (getitem_some _ _ _ w Hcd)).
  unfold invoke. fold reply_label.
  unfold mbind at 1. unfold Py_bind at 1.
  unfold mbind at 1. unfold Py_bind at 1. unfold record, lift.
  destruct (llm_invoke E llm _) as [resp | e]; [| reflexivity].
  cbv zeta.
  unfold mbind at 1. unfold Py_bind at 1. rewrite print_reply.
  destruct (printable (getattr_content resp)); [| reflexivity].
  unfold try_except, json_loads, escapes, stored_reply, fallback.
  py_unfold.
  destruct (getattr_content resp) as [| | | | text | |]; try reflexivity.
  destruct (Json.loads (interpreter E) text) as [v | e]; [reflexivity |].
  destruct e; reflexivity.
Qed.

(** The node on a state with [cost_data] when the model answers with a
    text that can be printed and on which the decoder raises nothing but a
    [JSONDecodeError]: one model call, one print, and the state with
    [optimizations] set to the parsed value or to the wrapper. *)
Lemma simulate_optimizations_run (E : Env) (st : state) (cd : value)
    (resp : Response) (text : string) (w : World) :
  st !! "cost_data" = Some cd ->
  llm_invoke E llm
    (prompt_text E cd (get_or st "user_question" (VStr default_question)))
  = Ok resp ->
  getattr_content resp = VStr text ->
  has_surrogate text = false ->
  escapes E text = None ->
  simulate_optimizations E st w
  = (Ok (<["optimizations" := stored_reply E text]> st),
     {| clock_reads := clock_reads w;
        trace :=
          (trace w
           ++ [LlmInvoked llm
                 (prompt_text E cd
                    (get_or st "user_question" (VStr default_question)))])
          ++ [Printed [reply_label; VStr text]] |}).
Proof.
  intros Hcd Hllm Hraw Hprint Hescapes.
  rewrite (simulate_optimizations_cases E st cd w Hcd).
  cbv zeta. rewrite Hllm, Hraw. simpl printable. rewrite Hprint. simpl negb.
  cbv iota. now rewrite Hescapes.
Qed.

(** C3. Three textual replies on which the handler raises instead of
    storing the wrapper: an int of 4301 digits, whose conversion raises a
    ValueError, and 1000 opening brackets, which raise a RecursionError
    (the [except] clause catches neither, they are not JSONDecodeError),
    and a reply holding a lone surrogate, on which the print before the
    [try] raises a UnicodeEncodeError. In each case the node raises and
    returns no state. *)
Theorem reply_handling_raises_beyond_limits :
  fst (simulate_optimizations (Case.replying Case.long_int)
         Script.fetched Script.world) = Raise ValueError
  /\ fst (simulate_optimizations (Case.replying Case.deep)
            Script.fetched Script.world) = Raise RecursionError
  /\ fst (simulate_optimizations (Case.replying Case.lone_surrogate)
            Script.fetched Script.world) = Raise UnicodeEncodeError.
Proof.
  split; [| split]; vm_compute; reflexivity.
Qed.

(** A reply that is valid JSON but not an object: the list it parses to
    is stored as it is, and it is neither the four-key object nor the
    wrapper. *)
Lemma optimizations_third_shape :
  fst (simulate_optimizations
         (Script.env (Script.text_reply "[]") (Ok tt))
         Script.fetched Script.world)
  = Ok (<["optimizations" := VList []]> Script.fetched)
  /\ (<["optimizations" := VList []]> Script.fetched) !! "optimizations"
     = Some (VList [])
  /\ ~ is_structured (VList [])
  /\ VList [] <> fallback (VStr "[]").
Proof.
  split; [reflexivity |]. split; [reflexivity |]. split.
  - intros (d & Hd & _). discriminate Hd.
  - discriminate.
Qed.

(** C4, as the code has it. Whenever the advisor returns on a textual
    reply, the value it left under [optimizations] is the JSON value the
    text parses to (any JSON value: an object with any keys, a list, a
    string, a number, a boolean or null) or, when the decoder refuses the
    text with a JSONDecodeError, the wrapper [{raw_output: text}]; it is
    the four-key object exactly when the text parses to an object with
    those four keys. *)
Theorem optimizations_parsed_or_fallback (E : Env) (st st' : state)
    (cd : value) (resp : Response) (text : string) (w w' : World) :
  st !! "cost_data" = Some cd ->
  llm_invoke E llm
    (prompt_text E cd (get_or st "user_question" (VStr default_question)))
  = Ok resp ->
  getattr_content resp = VStr text ->
  simulate_optimizations E st w = (Ok st', w') ->
  exists v,
    st' = <["optimizations" := v]> st
    /\ ((Json.loads (interpreter E) text = Ok v /\ json_value v)
        \/ (Json.loads (interpreter E) text = Raise JSONDecodeError
            /\ v = fallback (VStr text)))
    /\ (is_structured v <->
        exists d, Json.loads (interpreter E) text = Ok (VDict d) /\
          forall k, In k (Dict.keys d) <-> In k structured_keys).
Proof.
  intros Hcd Hllm Hraw.
  rewrite (simulate_optimizations_cases E st cd w Hcd).
  cbv zeta. rewrite Hllm, Hraw.
  destruct (printable (VStr text)); [| discriminate].
  unfold escapes, stored_reply.
  destruct (Json.loads (interpreter E) text) as [v | e] eqn:Hv.
  - intros [= <- _]. exists v. split; [reflexivity |]. split.
    + left. split; [reflexivity |]. eapply JsonFacts.loads_json, Hv.
    + split.
      * intros (d & -> & Hd). eauto.
      * intros (d & [= ->] & Hd). exists d. auto.
  - destruct e; try discriminate.
    intros [= <- _]. eexists. split; [reflexivity |]. split.
    + right. auto.
    + split.
      * intros (d & [= <-] & Hd).
        exfalso. specialize (proj1 (Hd "raw_output")). simpl.
        intros H. destruct H as [H | [H | [H | [H | []]]]];
          [auto | discriminate H ..].
      * intros (d & Hd & _). discriminate Hd.
Qed.

Lemma optimizations_parsed_or_fallback_witness :
  exists v,
    <["optimizations" := VList []]> Script.fetched
    = <["optimizations" := v]> Script.fetched
    /\ ((Json.loads (interpreter (Case.replying "[]")) "[]" = Ok v
         /\ json_value v)
        \/ (Json.loads (interpreter (Case.replying "[]")) "[]"
            = Raise JSONDecodeError
            /\ v = fallback (VStr "[]")))
    /\ (is_structured v <->
        exists d,
          Json.loads (interpreter (Case.replying "[]")) "[]" = Ok (VDict d)
          /\ forall k, In k (Dict.keys d) <-> In k structured_keys).
Proof.
  apply (optimizations_parsed_or_fallback (Case.replying "[]")
           Script.fetched (<["optimizations" := VList []]> Script.fetched)
           cost_observation (Case.reply "[]") "[]" Script.world
           (snd (simulate_optimizations (Case.replying "[]")
                   Script.fetched Script.world))).
  - reflexivity.
  - reflexivity.
  - reflexivity.
  - reflexivity.
Defined.

(** ** The request handler, step by step *)

Lemma cost_below_threshold :
  Float.gt_int (Float.of_decimal false 235 (-2)) 5 = false.
Proof. vm_compute. reflexivity. Qed.

(** On the fetched observation the detector always answers false. *)
Lemma detect_anomaly_fetched (st : state) (w : World) :
  detect_anomaly (<["cost_data" := cost_observation]> st) w
  = (Ok (<["anomaly_detected" := VBool false]>
           (<["cost_data" := cost_observation]> st)), w).
Proof.
  unfold detect_anomaly.
  rewrite (bind_ok _ _ _ _ _
             (getitem_some _ _ _ w (lookup_insert_eq st _ _))).
  unfold cost_observation, subscript.
  change (Dict.get _ "monthly_cost_usd")
    with (Some (VFloat (Float.of_decimal false 235 (-2)))).
  py_unfold. unfold gt_int. now rewrite cost_below_threshold.
Qed.

Lemma analysed_cost_data (q : string) :
  analysed q !! "cost_data" = Some cost_observation.
Proof.
  unfold analysed.
  rewrite lookup_insert_ne by discriminate. apply lookup_insert_eq.
Qed.

Lemma analysed_question (q : string) :
  get_or (analysed q) "user_question" (VStr default_question) = VStr q.
Proof.
  unfold get_or, analysed, initial.
  rewrite lookup_insert_ne by discriminate.
  rewrite lookup_insert_ne by discriminate.
  now rewrite lookup_singleton_eq.
Qed.

Lemma generate_report_run (E : Env) (st : state) (w : World) :
  generate_report E st w = (Ok (report_of E st w, st), tick w).
Proof. reflexivity. Qed.

(** The graph on the dict of [main]: the first two nodes always succeed,
    so the run is the advisor on the analysed state followed by the
    report. *)
Lemma app_invoke_run (E : Env) (q : string) (w : World) :
  app_invoke E (initial q) w
  = match simulate_optimizations E (analysed q) w with
    | (Ok st, w1) => (Ok (report_of E st w1), tick w1)
    | (Raise e, w1) => (Raise e, w1)
    end.
Proof.
  unfold app_invoke.
  rewrite (bind_ok _ _ w w _ (eq_refl : fetch_cost_data (initial q) w = _)).
  rewrite (bind_ok _ _ _ _ _ (detect_anomaly_fetched (initial q) w)).
  fold (analysed q).
  unfold mbind at 1. unfold Py_bind at 1.
  destruct (simulate_optimizations E (analysed q) w) as [[st | e] w1];
    reflexivity.
Qed.

(** Whatever the model does, the advisor on a state with [cost_data]
    makes exactly one model call, first, with the prompt built from the
    state; it reads no clock and uploads nothing. *)
Lemma simulate_optimizations_trace (E : Env) (st : state) (cd : value)
    (w : World) :
  st !! "cost_data" = Some cd ->
  exists rest,
    trace (snd (simulate_optimizations E st w))
    = (trace w
       ++ LlmInvoked llm
            (prompt_text E cd
               (get_or st "user_question" (VStr default_question)))
          :: rest)%list
    /\ clock_reads (snd (simulate_optimizations E st w)) = clock_reads w
    /\ Forall (fun ev => is_llm_call ev = false /\ is_upload ev = false) rest.
Proof.
  intros Hcd.
  rewrite (simulate_optimizations_cases E st cd w Hcd). cbv zeta.
  destruct (llm_invoke E _ _) as [resp | e]; simpl.
  - destruct (printable (getattr_content resp)).
    + exists [Printed [reply_label; getattr_content resp]].
      assert (Hrest : Forall
                (fun ev => is_llm_call ev = false /\ is_upload ev = false)
                [Printed [reply_label; getattr_content resp]])
        by (repeat constructor).
      destruct (getattr_content resp) as [| | | | text | |]; simpl;
        try destruct (escapes E text); simpl;
        rewrite <- app_assoc; auto.
    + exists [PrintAborted [reply_label]]. simpl.
      rewrite <- app_assoc. repeat constructor.
  - exists []. auto.
Qed.

Lemma save_state_to_blob_run (E : Env) (report : value) (w : World) :
  save_state_to_blob E report w
  = match connect_storage E AZURE_STORAGE_CONNECTION_STRING with
    | Raise e => (Raise e, w)
    | Ok _ =>
        (upload_blob E BLOB_CONTAINER_NAME (blob_name_at E w)
           (json_dumps E 2 report) true,
         {| clock_reads := S (clock_reads w);
            trace := trace w
                     ++ [BlobUploaded BLOB_CONTAINER_NAME (blob_name_at E w)
                           (json_dumps E 2 report) true] |})
    end.
Proof.
  unfold save_state_to_blob, utcnow. py_unfold.
  destruct (connect_storage E _); reflexivity.
Qed.

Lemma main_run (E : Env) (req : HttpRequest) (w : World) :
  main E req w
  = match app_invoke E (initial (asked req)) (started w) with
    | (Ok result, w1) =>
        match save_state_to_blob E result w1 with
        | (Ok _, w2) =>
            (Ok {| body := json_dumps E 2 result;
                   mimetype := "application/json";
                   status_code := 200 |}, w2)
        | (Raise e, w2) => (Raise e, w2)
        end
    | (Raise e, w1) => (Raise e, w1)
    end.
Proof.
  unfold main, print.
  change (forallb printable [VStr "🔥 LangGraph agent invoked"]) with true.
  py_unfold. fold (asked req). fold (initial (asked req)).
  fold (started w).
  destruct (app_invoke E (initial (asked req)) (started w))
    as [[result | e] w1]; [| reflexivity].
  destruct (save_state_to_blob E result w1) as [[u | e] w2]; reflexivity.
Qed.

(** The events of the graph run: the model call with the prompt for the
    question, then events that are neither model calls nor uploads. *)
Lemma app_invoke_trace (E : Env) (q : string) (w : World) :
  exists rest,
    trace (snd (app_invoke E (initial q) w))
    = (trace w
       ++ LlmInvoked llm (prompt_text E cost_observation (VStr q)) :: rest)%list
    /\ Forall (fun ev => is_llm_call ev = false /\ is_upload ev = false) rest.
Proof.
  destruct (simulate_optimizations_trace E (analysed q) cost_observation w
              (analysed_cost_data q)) as (rest & Htrace & _ & Hrest).
  rewrite analysed_question in Htrace.
  exists rest. split; [| exact Hrest].
  rewrite app_invoke_run.
  destruct (simulate_optimizations E (analysed q) w) as [[st | e] w1];
    exact Htrace.
Qed.

(** ** RequestHandler *)

(** C7. For a request without a [question] parameter the handler takes
    the default question, and the run makes exactly one call to the
    language model, right after its first print, whose prompt is the fixed
    head, the text of the fetched cost data, the label of the user
    question, the default question and the fixed tail. *)
Theorem default_question_in_prompt (E : Env) (req : HttpRequest) (w : World) :
  params req !! "question" = None ->
  asked req = "Explore my Azure costs"
  /\ exists rest,
       trace (snd (main E req w))
       = (trace w
          ++ [Printed [VStr "🔥 LangGraph agent invoked"];
              LlmInvoked llm
                (prompt_head ++ py_str E cost_observation
                 ++ prompt_question_label ++ "Explore my Azure costs"
                 ++ prompt_tail)%string]
          ++ rest)%list
       /\ Forall (fun ev => is_llm_call ev = false) rest.
Proof.
  intros Hq.
  assert (Hasked : asked req = "Explore my Azure costs")
    by (unfold asked; now rewrite Hq).
  split; [exact Hasked |].
  destruct (app_invoke_trace E (asked req) (started w))
    as (rest & Htrace & Hrest).
  rewrite Hasked in Htrace.
  change (prompt_text E cost_observation (VStr "Explore my Azure costs"))
    with (prompt_head ++ py_str E cost_observation
          ++ prompt_question_label ++ "Explore my Azure costs"
          ++ prompt_tail)%string in Htrace.
  assert (Hllm : Forall (fun ev => is_llm_call ev = false) rest).
  { eapply List.Forall_impl; [| exact Hrest]. now intros ev [H _]. }
  rewrite main_run, Hasked.
  destruct (app_invoke E (initial "Explore my Azure costs") (started w))
    as [[result | e] w1]; simpl in Htrace.
  - rewrite save_state_to_blob_run.
    destruct (connect_storage E _) as [u | e].
    + eexists (rest ++ [_])%list.
      destruct (upload_blob E _ _ _ _); simpl; rewrite Htrace;
        (split; [now rewrite <- !app_assoc |]);
        (apply Forall_app; split; [exact Hllm | now repeat constructor]).
    + exists rest. simpl. rewrite Htrace.
      split; [now rewrite <- !app_assoc | exact Hllm].
  - exists rest. simpl. rewrite Htrace.
    split; [now rewrite <- !app_assoc | exact Hllm].
Qed.

Lemma default_question_in_prompt_witness :
  asked Script.no_question = "Explore my Azure costs"
  /\ exists rest,
       trace (snd (main Script.served Script.no_question Script.world))
       = (trace Script.world
          ++ [Printed [VStr "🔥 LangGraph agent invoked"];
              LlmInvoked llm
                (prompt_head ++ py_str Script.served cost_observation
                 ++ prompt_question_label ++ "Explore my Azure costs"
                 ++ prompt_tail)%string]
          ++ rest)%list
       /\ Forall (fun ev => is_llm_call ev = false) rest.
Proof.
  apply (default_question_in_prompt Script.served Script.no_question
           Script.world).
  reflexivity.
Defined.

(** ** ReportStore *)

(** C5. Once the graph has returned the report, a refused upload ends the
    request: [main] raises the storage error as it came, after the upload
    was attempted with the serialised report, and returns no response. *)
Theorem upload_failure_aborts (E : Env) (req : HttpRequest) (w w1 : World)
    (report : value) (e : exn) :
  app_invoke E (initial (asked req)) (started w) = (Ok report, w1) ->
  connect_storage E AZURE_STORAGE_CONNECTION_STRING = Ok tt ->
  upload_blob E BLOB_CONTAINER_NAME (blob_name_at E w1)
    (json_dumps E 2 report) true = Raise e ->
  exists w2,
    main E req w = (Raise e, w2)
    /\ trace w2
       = (trace w1
          ++ [BlobUploaded BLOB_CONTAINER_NAME (blob_name_at E w1)
                (json_dumps E 2 report) true])%list
    /\ forall resp, fst (main E req w) <> Ok resp.
Proof.
  intros Hgraph Hconnect Hupload.
  assert (Hmain : main E req w
                  = (Raise e,
                     {| clock_reads := S (clock_reads w1);
                        trace := trace w1
                                 ++ [BlobUploaded BLOB_CONTAINER_NAME
                                       (blob_name_at E w1)
                                       (json_dumps E 2 report) true] |})).
  { rewrite main_run, Hgraph, save_state_to_blob_run, Hconnect, Hupload.
    reflexivity. }
  eexists. split; [exact Hmain |]. split; [reflexivity |].
  intros resp. rewrite Hmain. discriminate.
Qed.

Lemma upload_failure_aborts_witness :
  exists w2,
    main Script.refused Script.no_question Script.world
    = (Raise (ServiceError "upload refused"), w2)
    /\ trace w2
       = (trace Script.after_graph
          ++ [BlobUploaded BLOB_CONTAINER_NAME
                (blob_name_at Script.refused Script.after_graph)
                (json_dumps Script.refused 2 Script.report) true])%list
    /\ forall resp,
         fst (main Script.refused Script.no_question Script.world) <> Ok resp.
Proof.
  apply (upload_failure_aborts Script.refused Script.no_question
           Script.world Script.after_graph Script.report
           (ServiceError "upload refused")).
  - vm_compute. reflexivity.
  - reflexivity.
  - reflexivity.
Defined.

(** C10. Whenever [main] returns a response, the request made exactly one
    upload, last, and the text it uploaded is the body of the response:
    both are [json.dumps] with [indent=2] of the report the graph
    returned. *)
Theorem persisted_equals_returned (E : Env) (req : HttpRequest)
    (w w' : World) (resp : HttpResponse) :
  main E req w = (Ok resp, w') ->
  exists report evs name,
    fst (app_invoke E (initial (asked req)) (started w)) = Ok report
    /\ body resp = json_dumps E 2 report
    /\ trace w'
       = (trace w ++ evs
          ++ [BlobUploaded BLOB_CONTAINER_NAME name (body resp) true])%list
    /\ Forall (fun ev => is_upload ev = false) evs.
Proof.
  rewrite main_run. intros Hmain.
  destruct (app_invoke_trace E (asked req) (started w))
    as (rest & Htrace & Hrest).
  destruct (app_invoke E (initial (asked req)) (started w))
    as [[result | e] w1]; [| discriminate].
  rewrite save_state_to_blob_run in Hmain.
  destruct (connect_storage E _) as [u | e]; [| discriminate].
  destruct (upload_blob E _ _ _ _) as [u' | e]; [| discriminate].
  injection Hmain as <- <-. simpl in Htrace.
  exists result,
    (Printed [VStr "🔥 LangGraph agent invoked"]
     :: LlmInvoked llm (prompt_text E cost_observation (VStr (asked req)))
     :: rest),
    (blob_name_at E w1).
  split; [reflexivity |]. split; [reflexivity |]. split.
  - simpl. rewrite Htrace. now rewrite <- !app_assoc.
  - constructor; [reflexivity |]. constructor; [reflexivity |].
    eapply List.Forall_impl; [| exact Hrest]. now intros ev [_ H].
Qed.

Lemma persisted_equals_returned_witness :
  exists report evs name,
    fst (app_invoke Script.served (initial (asked Script.no_question))
           (started Script.world)) = Ok report
    /\ body Script.response = json_dumps Script.served 2 report
    /\ trace Script.after_request
       = (trace Script.world ++ evs
          ++ [BlobUploaded BLOB_CONTAINER_NAME name (body Script.response)
                true])%list
    /\ Forall (fun ev => is_upload ev = false) evs.
Proof.
  apply (persisted_equals_returned Script.served Script.no_question
           Script.world Script.after_request Script.response).
  vm_compute. reflexivity.
Defined.

(** ** Further properties of the nodes *)

(** X4. [detect_anomaly] returns a state exactly when [cost_data] is a
    dict whose [monthly_cost_usd] is a number. In every other case it
    raises the KeyError of the missing key or a TypeError, and in all
    cases it makes no outbound call and reads no clock. *)
Theorem detect_anomaly_outcomes (st : state) (w : World) :
  snd (detect_anomaly st w) = w
  /\ ((exists st', fst (detect_anomaly st w) = Ok st') <->
      (exists d cost,
          st !! "cost_data" = Some (VDict d)
          /\ Dict.get d "monthly_cost_usd" = Some cost
          /\ is_number cost))
  /\ (forall e,
        fst (detect_anomaly st w) = Raise e ->
        (e = KeyError "cost_data" /\ st !! "cost_data" = None)
        \/ (e = KeyError "monthly_cost_usd"
            /\ exists d, st !! "cost_data" = Some (VDict d)
                         /\ Dict.get d "monthly_cost_usd" = None)
        \/ e = TypeError).
Proof.
  unfold detect_anomaly, getitem, subscript, gt_int. py_unfold.
  destruct (st !! "cost_data") as [cd |] eqn:Hcd; simpl.
  - destruct cd as [| b | z | f | s | l | d]; simpl;
      try (split; [reflexivity |]; split;
           [split; [intros [st' H]; discriminate H
                   | intros (d & cost & [= H] & _)]
           | intros e [= <-]; auto]).
    destruct (Dict.get d "monthly_cost_usd") as [cost |] eqn:Hcost; simpl.
    + split; [now destruct cost |]. split.
      * split.
        -- intros [st' H]. exists d, cost.
           split; [reflexivity |]. split; [exact Hcost |].
           destruct cost; simpl in *; try exact I; discriminate H.
        -- intros (d' & cost' & [= <-] & Hc & Hn).
           rewrite Hcost in Hc. injection Hc as <-.
           destruct cost; simpl in *; try contradiction; eauto.
      * intros e H. right. right.
        destruct cost; simpl in H; try discriminate H;
          now injection H as <-.
    + split; [reflexivity |]. split.
      * split; [intros [st' H]; discriminate H |].
        intros (d' & cost & [= <-] & Hc & _). rewrite Hcost in Hc.
        discriminate Hc.
      * intros e [= <-]. right. left. eauto.
  - split; [reflexivity |]. split.
    + split; [intros [st' H]; discriminate H |].
      intros (d & cost & H & _). discriminate H.
    + intros e [= <-]. auto.
Qed.

(** X6. Whatever the state holds, even a malformed [cost_data],
    [detect_anomaly] run on the result of [fetch_cost_data] succeeds and
    sets [anomaly_detected] to false, with no outbound call. *)
Theorem fetch_then_detect (st : state) (w : World) :
  (fetch_cost_data st ≫= detect_anomaly) w
  = (Ok (<["anomaly_detected" := VBool false]>
           (<["cost_data" := cost_observation]> st)), w)
  /\ (<["anomaly_detected" := VBool false]>
        (<["cost_data" := cost_observation]> st)) !! "cost_data"
     = Some cost_observation.
Proof.
  split.
  - rewrite (bind_ok _ _ w w _ (eq_refl : fetch_cost_data st w = _)).
    apply detect_anomaly_fetched.
  - rewrite lookup_insert_ne by discriminate. apply lookup_insert_eq.
Qed.

(** X5. On a state without [cost_data] the advisor raises the KeyError
    for that key before it calls the model: the world is left as it was. *)
Theorem advisor_needs_cost_data (E : Env) (st : state) (w : World) :
  st !! "cost_data" = None ->
  simulate_optimizations E st w = (Raise (KeyError "cost_data"), w).
Proof.
  intros Hcd. unfold simulate_optimizations.
  now rewrite (bind_raise _ _ _ _ _ (getitem_none _ _ w Hcd)).
Qed.

Lemma advisor_needs_cost_data_witness :
  simulate_optimizations Script.served (initial "why") Script.world
  = (Raise (KeyError "cost_data"), Script.world).
Proof.
  apply (advisor_needs_cost_data Script.served (initial "why") Script.world).
  reflexivity.
Defined.

Lemma simulate_optimizations_refused (E : Env) (st : state) (cd : value)
    (e : exn) (w : World) :
  st !! "cost_data" = Some cd ->
  llm_invoke E llm
    (prompt_text E cd (get_or st "user_question" (VStr default_question)))
  = Raise e ->
  simulate_optimizations E st w
  = (Raise e,
     {| clock_reads := clock_reads w;
        trace :=
          trace w
          ++ [LlmInvoked llm
                (prompt_text E cd
                   (get_or st "user_question" (VStr default_question)))] |}).
Proof.
  intros Hcd Hllm. unfold simulate_optimizations.
  rewrite (bind_ok _ _ _ _ _ (getitem_some _ _ _ w Hcd)).
  unfold invoke. py_unfold. now rewrite Hllm.
Qed.

(** X3. When the model's reply is not a text (its [content] is a list of
    blocks, say), [json.loads] raises a TypeError that the handler does not
    catch: the advisor raises it after the model call and the print, and
    no [optimizations] is stored. *)
Theorem non_text_reply_raises (E : Env) (st : state) (cd : value)
    (resp : Response) (w : World) :
  st !! "cost_data" = Some cd ->
  llm_invoke E llm
    (prompt_text E cd (get_or st "user_question" (VStr default_question)))
  = Ok resp ->
  (forall text, getattr_content resp <> VStr text) ->
  simulate_optimizations E st w
  = (Raise TypeError,
     {| clock_reads := clock_reads w;
        trace :=
          (trace w
           ++ [LlmInvoked llm
                 (prompt_text E cd
                    (get_or st "user_question" (VStr default_question)))])
          ++ [Printed [VStr "📝 Raw LLM output:"; getattr_content resp]] |}).
Proof.
  intros Hcd Hllm Hraw. unfold simulate_optimizations.
  rewrite (bind_ok _ _ _ _ _ (getitem_some _ _ _ w Hcd)).
  unfold invoke, print, try_except, json_loads. py_unfold.
  rewrite Hllm. simpl.
  destruct (getattr_content resp) as [| | | | text | |]; try reflexivity.
  now destruct (Hraw text).
Qed.

Lemma non_text_reply_raises_witness :
  simulate_optimizations Case.multimodal Script.fetched Script.world
  = (Raise TypeError,
     {| clock_reads := clock_reads Script.world;
        trace :=
          (trace Script.world
           ++ [LlmInvoked llm
                 (prompt_text Case.multimodal cost_observation
                    (get_or Script.fetched "user_question"
                       (VStr default_question)))])
          ++ [Printed [VStr "📝 Raw LLM output:";
                       getattr_content Case.blocks]] |}).
Proof.
  apply (non_text_reply_raises Case.multimodal Script.fetched
           cost_observation Case.blocks Script.world).
  - reflexivity.
  - reflexivity.
  - intros text H. discriminate H.
Defined.

(** X7. When the three state-threading nodes run in the order of the
    graph and all return, the final state has the keys of the first input
    and the three keys the nodes write, every other key holds what the
    input held, and [cost_data] and [anomaly_detected] hold the fixed
    observation and false. *)
Theorem chain_keys (E : Env) (st st1 st2 st3 : state) (w w1 w2 w3 : World) :
  fetch_cost_data st w = (Ok st1, w1) ->
  detect_anomaly st1 w1 = (Ok st2, w2) ->
  simulate_optimizations E st2 w2 = (Ok st3, w3) ->
  dom st3 = dom st ∪ written_keys
  /\ (forall k, k ∉ written_keys -> st3 !! k = st !! k)
  /\ st3 !! "cost_data" = Some cost_observation
  /\ st3 !! "anomaly_detected" = Some (VBool false).
Proof.
  intros Hfetch Hdetect Hadvise.
  unfold fetch_cost_data in Hfetch. py_unfold. injection Hfetch as <- <-.
  rewrite detect_anomaly_fetched in Hdetect. injection Hdetect as <- <-.
  apply simulate_optimizations_ok in Hadvise as [v ->].
  unfold written_keys. split; [| split; [| split]].
  - rewrite !dom_insert_L. apply set_eq. intros k.
    rewrite !elem_of_union. tauto.
  - intros k Hk.
    assert (Hne : k <> "cost_data" /\ k <> "anomaly_detected"
                  /\ k <> "optimizations").
    { repeat split; intros Heq; apply Hk; rewrite Heq;
        rewrite !elem_of_union, !elem_of_singleton; auto. }
    destruct Hne as (H1 & H2 & H3).
    rewrite !lookup_insert_ne by congruence. reflexivity.
  - rewrite !lookup_insert_ne by discriminate. apply lookup_insert_eq.
  - rewrite lookup_insert_ne by discriminate. apply lookup_insert_eq.
Qed.

Lemma chain_keys_witness :
  dom Case.advised = dom Case.asked_state ∪ written_keys
  /\ (forall k, k ∉ written_keys ->
                Case.advised !! k = Case.asked_state !! k)
  /\ Case.advised !! "cost_data" = Some cost_observation
  /\ Case.advised !! "anomaly_detected" = Some (VBool false).
Proof.
  apply (chain_keys Script.served Case.asked_state
           (<["cost_data" := cost_observation]> Case.asked_state)
           (analysed "Explore my Azure costs") Case.advised
           Script.world Script.world Script.world Case.advised_world).
  - reflexivity.
  - apply detect_anomaly_fetched.
  - reflexivity.
Defined.

(** A text that is blank, or whose first character after the leading
    whitespace cannot begin a JSON value, is refused by the decoder with a
    JSONDecodeError, whatever the limits. *)
Lemma loads_rejects_start (lim : Json.limits) (text : string) :
  Json.skip_whitespace text = EmptyString
  \/ (exists c r, Json.skip_whitespace text = String c r
                  /\ can_start_value c = false) ->
  Json.loads lim text = Raise JSONDecodeError.
Proof.
  intros Hstart. unfold Json.loads.
  destruct (Json.strip_prefix Json.bom text); [reflexivity |].
  unfold Json.decode, Json.fuel_for.
  destruct Hstart as [-> | (c & r & -> & Hc)]; [reflexivity |].
  destruct c as [[] [] [] [] [] [] [] []];
    first [discriminate Hc | reflexivity].
Qed.

(** X12. A textual reply without surrogates that is empty or blank, or
    that begins (after leading whitespace) with a character no JSON value
    begins with, a code fence or a word for instance, is never parsed: the
    advisor stores [{raw_output: text}] with the whole text. *)
Theorem unparseable_start_falls_back (E : Env) (st : state) (cd : value)
    (resp : Response) (text : string) (w : World) :
  st !! "cost_data" = Some cd ->
  llm_invoke E llm
    (prompt_text E cd (get_or st "user_question" (VStr default_question)))
  = Ok resp ->
  getattr_content resp = VStr text ->
  has_surrogate text = false ->
  (Json.skip_whitespace text = EmptyString
   \/ exists c r, Json.skip_whitespace text = String c r
                  /\ can_start_value c = false) ->
  exists w',
    simulate_optimizations E st w
    = (Ok (<["optimizations" := VDict [("raw_output", VStr text)]]> st), w').
Proof.
  intros Hcd Hllm Hraw Hprint Hstart.
  pose proof (loads_rejects_start (interpreter E) text Hstart) as Hloads.
  rewrite (simulate_optimizations_run E st cd resp text w Hcd Hllm Hraw
             Hprint).
  - unfold stored_reply. rewrite Hloads. eauto.
  - unfold escapes. now rewrite Hloads.
Qed.

Lemma unparseable_start_falls_back_witness :
  exists w',
    simulate_optimizations
      (Script.env (Script.text_reply Case.fenced) (Ok tt))
      Script.fetched Script.world
    = (Ok (<["optimizations" := VDict [("raw_output", VStr Case.fenced)]]>
             Script.fetched), w').
Proof.
  apply (unparseable_start_falls_back
           (Script.env (Script.text_reply Case.fenced) (Ok tt))
           Script.fetched cost_observation (Case.reply Case.fenced)).
  - reflexivity.
  - reflexivity.
  - reflexivity.
  - reflexivity.
  - right. exists "`"%char, "``json {} ```". split; reflexivity.
Defined.

(** ** Further properties of the request handler *)

(** The advisor on the analysed state, by cases on what the model does,
    on whether its reply can be printed and on the decoder. *)
Lemma advisor_cases (E : Env) (req : HttpRequest) (w : World) :
  simulate_optimizations E (analysed (asked req)) (started w)
  = match llm_invoke E llm (prompt_for E (asked req)) with
    | Raise e => (Raise e, called E req w)
    | Ok reply =>
        if printable (getattr_content reply) then
          match getattr_content reply with
          | VStr text =>
              match escapes E text with
              | Some e => (Raise e, answered E req w (VStr text))
              | None =>
                  (Ok (<["optimizations" := stored_reply E text]>
                         (analysed (asked req))),
                   answered E req w (VStr text))
              end
          | raw => (Raise TypeError, answered E req w raw)
          end
        else (Raise UnicodeEncodeError, aborted E req w)
    end.
Proof.
  rewrite (simulate_optimizations_cases E _ _ _
             (analysed_cost_data (asked req))).
  cbv zeta. rewrite analysed_question.
  change (prompt_text E cost_observation (VStr (asked req)))
    with (prompt_for E (asked req)).
  unfold aborted, answered, called, started, reply_label. simpl.
  destruct (llm_invoke E llm (prompt_for E (asked req))) as [reply | e].
  - destruct (printable (getattr_content reply)).
    + destruct (getattr_content reply) as [| | | | text | |];
        try destruct (escapes E text);
        rewrite <- !app_assoc; reflexivity.
    + rewrite <- !app_assoc. reflexivity.
  - rewrite <- !app_assoc. reflexivity.
Qed.

Lemma report_of_advised (E : Env) (req : HttpRequest) (w : World)
    (text : string) :
  report_of E
    (<["optimizations" := stored_reply E text]> (analysed (asked req)))
    (answered E req w (VStr text))
  = final_report E w text.
Proof.
  unfold report_of, final_report, get_or, analysed. simpl.
  rewrite lookup_insert_eq.
  rewrite !(lookup_insert_ne _ "optimizations") by discriminate.
  rewrite lookup_insert_eq.
  rewrite (lookup_insert_ne _ "anomaly_detected") by discriminate.
  rewrite lookup_insert_eq. reflexivity.
Qed.

(** The whole of [main], by cases on what the three services do, on
    whether the reply can be printed and on the decoder. *)
Lemma main_cases (E : Env) (req : HttpRequest) (w : World) :
  main E req w
  = match llm_invoke E llm (prompt_for E (asked req)) with
    | Raise e => (Raise e, called E req w)
    | Ok reply =>
        if printable (getattr_content reply) then
          match getattr_content reply with
          | VStr text =>
              match escapes E text with
              | Some e => (Raise e, answered E req w (VStr text))
              | None =>
                  match connect_storage E AZURE_STORAGE_CONNECTION_STRING with
                  | Raise e => (Raise e, tick (answered E req w (VStr text)))
                  | Ok _ =>
                      match upload_blob E BLOB_CONTAINER_NAME
                              (upload_name E w)
                              (json_dumps E 2 (final_report E w text))
                              true with
                      | Raise e => (Raise e, uploaded E req w text)
                      | Ok _ =>
                          (Ok {| body :=
                                   json_dumps E 2 (final_report E w text);
                                 mimetype := "application/json";
                                 status_code := 200 |},
                           uploaded E req w text)
                      end
                  end
              end
          | raw => (Raise TypeError, answered E req w raw)
          end
        else (Raise UnicodeEncodeError, aborted E req w)
    end.
Proof.
  rewrite main_run, app_invoke_run, advisor_cases.
  destruct (llm_invoke E llm (prompt_for E (asked req))) as [reply | e];
    [| reflexivity].
  destruct (printable (getattr_content reply)); [| reflexivity].
  destruct (getattr_content reply) as [| | | | text | |]; try reflexivity.
  destruct (escapes E text); [reflexivity |].
  rewrite report_of_advised, save_state_to_blob_run.
  destruct (connect_storage E _) as [u | e]; [| reflexivity].
  change (blob_name_at E (tick (answered E req w (VStr text))))
    with (upload_name E w).
  destruct (upload_blob E _ _ _ _) as [u' | e]; reflexivity.
Qed.

(** X8. When the model answers with a text that holds no surrogate and on
    which the decoder raises nothing but a JSONDecodeError, and the
    storage accepts the connection and the upload, [main] returns the
    response whose body is the serialised report: timestamp the first
    clock reading, the fixed cost observation, anomaly flag false, and the
    parsed reply or its wrapper. The request makes, in this order, its
    print, one model call, the print of the reply and one upload named
    after the second clock reading, and reads the clock exactly twice. *)
Theorem main_completes (E : Env) (req : HttpRequest) (reply : Response)
    (text : string) (w : World) :
  llm_invoke E llm (prompt_for E (asked req)) = Ok reply ->
  getattr_content reply = VStr text ->
  has_surrogate text = false ->
  escapes E text = None ->
  connect_storage E AZURE_STORAGE_CONNECTION_STRING = Ok tt ->
  upload_blob E BLOB_CONTAINER_NAME
    ("agent-report-" ++ utcnow_isoformat E (S (clock_reads w)) ++ ".json")
    (json_dumps E 2 (final_report E w text)) true = Ok tt ->
  main E req w
  = (Ok {| body := json_dumps E 2 (final_report E w text);
           mimetype := "application/json";
           status_code := 200 |},
     {| clock_reads := S (S (clock_reads w));
        trace :=
          trace w
          ++ [Printed [VStr "🔥 LangGraph agent invoked"];
              LlmInvoked llm (prompt_for E (asked req));
              Printed [VStr "📝 Raw LLM output:"; VStr text];
              BlobUploaded BLOB_CONTAINER_NAME
                ("agent-report-" ++ utcnow_isoformat E (S (clock_reads w))
                 ++ ".json")
                (json_dumps E 2 (final_report E w text)) true] |}).
Proof.
  intros Hllm Hraw Hprint Hescapes Hconnect Hupload.
  rewrite main_cases, Hllm, Hraw. simpl printable. rewrite Hprint.
  simpl negb. cbv iota. rewrite Hescapes, Hconnect.
  unfold upload_name. rewrite Hupload.
  unfold uploaded, answered, called, upload_name. simpl.
  now rewrite <- !app_assoc.
Qed.

Lemma main_completes_witness :
  main Script.served Script.no_question Script.world
  = (Ok {| body := json_dumps Script.served 2
                     (final_report Script.served Script.world "[]");
           mimetype := "application/json";
           status_code := 200 |},
     {| clock_reads := S (S (clock_reads Script.world));
        trace :=
          trace Script.world
          ++ [Printed [VStr "🔥 LangGraph agent invoked"];
              LlmInvoked llm
                (prompt_for Script.served (asked Script.no_question));
              Printed [VStr "📝 Raw LLM output:"; VStr "[]"];
              BlobUploaded BLOB_CONTAINER_NAME
                ("agent-report-"
                 ++ utcnow_isoformat Script.served
                      (S (clock_reads Script.world))
                 ++ ".json")
                (json_dumps Script.served 2
                   (final_report Script.served Script.world "[]"))
                true] |}).
Proof.
  apply (main_completes Script.served Script.no_question (Case.reply "[]")).
  - reflexivity.
  - reflexivity.
  - reflexivity.
  - reflexivity.
  - reflexivity.
  - reflexivity.
Defined.

(** X9. [main] returns a response only if the model answered with a text
    and the storage accepted both the connection and the upload; the body
    is then the serialised report built from that text. *)
Theorem main_returns_only_if (E : Env) (req : HttpRequest) (w w' : World)
    (resp : HttpResponse) :
  main E req w = (Ok resp, w') ->
  exists reply text,
    llm_invoke E llm (prompt_for E (asked req)) = Ok reply
    /\ getattr_content reply = VStr text
    /\ connect_storage E AZURE_STORAGE_CONNECTION_STRING = Ok tt
    /\ upload_blob E BLOB_CONTAINER_NAME
         ("agent-report-" ++ utcnow_isoformat E (S (clock_reads w))
          ++ ".json")
         (json_dumps E 2 (final_report E w text)) true = Ok tt
    /\ body resp = json_dumps E 2 (final_report E w text)
    /\ status_code resp = 200.
Proof.
  rewrite main_cases. intros Hmain.
  destruct (llm_invoke E llm (prompt_for E (asked req))) as [reply | e];
    [| discriminate Hmain].
  exists reply.
  destruct (printable (getattr_content reply)); [| discriminate Hmain].
  destruct (getattr_content reply) as [| | | | text | |];
    try discriminate Hmain.
  exists text.
  destruct (escapes E text); [discriminate Hmain |].
  destruct (connect_storage E _) as [[] | e]; [| discriminate Hmain].
  unfold upload_name in Hmain.
  destruct (upload_blob E _ _ _ _) as [[] | e] eqn:Hupload;
    [| discriminate Hmain].
  injection Hmain as <- _. auto 10.
Qed.

Lemma main_returns_only_if_witness :
  exists reply text,
    llm_invoke Script.served llm
      (prompt_for Script.served (asked Script.no_question)) = Ok reply
    /\ getattr_content reply = VStr text
    /\ connect_storage Script.served AZURE_STORAGE_CONNECTION_STRING = Ok tt
    /\ upload_blob Script.served BLOB_CONTAINER_NAME
         ("agent-report-"
          ++ utcnow_isoformat Script.served (S (clock_reads Script.world))
          ++ ".json")
         (json_dumps Script.served 2
            (final_report Script.served Script.world text)) true = Ok tt
    /\ body Script.response
       = json_dumps Script.served 2
           (final_report Script.served Script.world text)
    /\ status_code Script.response = 200.
Proof.
  apply (main_returns_only_if Script.served Script.no_question Script.world
           Case.served_world Script.response).
  vm_compute. reflexivity.
Defined.

(** X2. Whatever the model call raises, [main] raises the same exception:
    nothing is printed after the call, the clock is not read, no report is
    built and nothing is uploaded. *)
Theorem model_failure_aborts (E : Env) (req : HttpRequest) (w : World)
    (e : exn) :
  llm_invoke E llm (prompt_for E (asked req)) = Raise e ->
  main E req w
  = (Raise e,
     {| clock_reads := clock_reads w;
        trace := trace w
                 ++ [Printed [VStr "🔥 LangGraph agent invoked"];
                     LlmInvoked llm (prompt_for E (asked req))] |}).
Proof.
  intros Hllm. rewrite main_cases, Hllm. reflexivity.
Qed.

Lemma model_failure_aborts_witness :
  main Case.quota Script.no_question Script.world
  = (Raise (ServiceError "quota exceeded"),
     {| clock_reads := clock_reads Script.world;
        trace := trace Script.world
                 ++ [Printed [VStr "🔥 LangGraph agent invoked"];
                     LlmInvoked llm
                       (prompt_for Case.quota (asked Script.no_question))] |}).
Proof.
  apply (model_failure_aborts Case.quota Script.no_question Script.world).
  reflexivity.
Defined.

(** X10. When the model answered with a text that holds no surrogate and
    on which the decoder raises nothing but a JSONDecodeError, and the
    storage account cannot be reached, [main] raises that error after the
    report was built: the blob name is never computed (the clock was read
    once, for the report) and no upload is attempted. *)
Theorem connection_failure_aborts (E : Env) (req : HttpRequest)
    (reply : Response) (text : string) (w : World) (e : exn) :
  llm_invoke E llm (prompt_for E (asked req)) = Ok reply ->
  getattr_content reply = VStr text ->
  has_surrogate text = false ->
  escapes E text = None ->
  connect_storage E AZURE_STORAGE_CONNECTION_STRING = Raise e ->
  exists w',
    main E req w = (Raise e, w')
    /\ clock_reads w' = S (clock_reads w)
    /\ trace w' = (trace w
                   ++ [Printed [VStr "🔥 LangGraph agent invoked"];
                       LlmInvoked llm (prompt_for E (asked req));
                       Printed [VStr "📝 Raw LLM output:"; VStr text]])%list.
Proof.
  intros Hllm Hraw Hprint Hescapes Hconnect.
  rewrite main_cases, Hllm, Hraw. simpl printable. rewrite Hprint.
  simpl negb. cbv iota. rewrite Hescapes, Hconnect.
  eexists. split; [reflexivity |]. split; [reflexivity |].
  unfold tick, answered, called. simpl. now rewrite <- !app_assoc.
Qed.

Lemma connection_failure_aborts_witness :
  exists w',
    main Case.offline Script.no_question Script.world
    = (Raise (ServiceError "bad connection string"), w')
    /\ clock_reads w' = S (clock_reads Script.world)
    /\ trace w' = (trace Script.world
                   ++ [Printed [VStr "🔥 LangGraph agent invoked"];
                       LlmInvoked llm
                         (prompt_for Case.offline (asked Script.no_question));
                       Printed [VStr "📝 Raw LLM output:"; VStr "[]"]])%list.
Proof.
  apply (connection_failure_aborts Case.offline Script.no_question
           (Case.reply "[]") "[]" Script.world
           (ServiceError "bad connection string")).
  - reflexivity.
  - reflexivity.
  - reflexivity.
  - reflexivity.
  - reflexivity.
Defined.

(** X1. For a request that carries a [question] parameter, the text of
    the parameter, as it is and even when it is empty, is the question of
    the prompt of the one model call of the run; the default question is
    not used. *)
Theorem supplied_question_in_prompt (E : Env) (req : HttpRequest)
    (q : string) (w : World) :
  params req !! "question" = Some q ->
  exists rest,
    trace (snd (main E req w))
    = (trace w
       ++ [Printed [VStr "🔥 LangGraph agent invoked"];
           LlmInvoked llm
             (prompt_head ++ py_str E cost_observation
              ++ prompt_question_label ++ q ++ prompt_tail)%string]
       ++ rest)%list
    /\ Forall (fun ev => is_llm_call ev = false) rest.
Proof.
  intros Hq.
  assert (Hasked : asked req = q) by (unfold asked; now rewrite Hq).
  rewrite main_cases.
  unfold uploaded, tick, aborted, answered, called. rewrite Hasked.
  change (prompt_for E q)
    with (prompt_head ++ py_str E cost_observation
          ++ prompt_question_label ++ q ++ prompt_tail)%string.
  destruct (llm_invoke E llm _) as [reply | e]; simpl.
  - destruct (printable (getattr_content reply)); simpl;
      [| eexists [_]; split;
         [now rewrite <- !app_assoc | now repeat constructor]].
    destruct (getattr_content reply) as [| | | | text | |]; simpl;
      try (eexists [_]; split;
           [now rewrite <- !app_assoc | now repeat constructor]).
    destruct (escapes E text); simpl;
      [eexists [_]; split;
       [now rewrite <- !app_assoc | now repeat constructor] |].
    destruct (connect_storage E _) as [u | e]; simpl.
    + destruct (upload_blob E _ _ _ _); simpl;
        (eexists [_; _]; split;
         [now rewrite <- !app_assoc | now repeat constructor]).
    + eexists [_]; split;
        [now rewrite <- !app_assoc | now repeat constructor].
  - exists []. split; [reflexivity | constructor].
Qed.

Lemma supplied_question_in_prompt_witness :
  exists rest,
    trace (snd (main Script.served Case.empty_question Script.world))
    = (trace Script.world
       ++ [Printed [VStr "🔥 LangGraph agent invoked"];
           LlmInvoked llm
             (prompt_head ++ py_str Script.served cost_observation
              ++ prompt_question_label ++ "" ++ prompt_tail)%string]
       ++ rest)%list
    /\ Forall (fun ev => is_llm_call ev = false) rest.
Proof.
  apply (supplied_question_in_prompt Script.served Case.empty_question ""
           Script.world).
  reflexivity.
Defined.

(** X13. [main] reads nothing of the request but its [question]
    parameter: two requests that agree on it behave alike in every world,
    whatever other parameters they carry. *)
Theorem only_the_question_matters (E : Env) (req1 req2 : HttpRequest)
    (w : World) :
  params req1 !! "question" = params req2 !! "question" ->
  main E req1 w = main E req2 w.
Proof.
  intros Hq.
  assert (Hasked : asked req1 = asked req2) by (unfold asked; now rewrite Hq).
  rewrite !main_cases.
  unfold uploaded, tick, aborted, answered, called. now rewrite Hasked.
Qed.

Lemma only_the_question_matters_witness :
  main Script.served {| params := {["verbose" := "1"]} |} Script.world
  = main Script.served Script.no_question Script.world.
Proof.
  apply (only_the_question_matters Script.served
           {| params := {["verbose" := "1"]} |} Script.no_question
           Script.world).
  reflexivity.
Defined.

(** ** Blob names *)

Lemma length_append (a b : string) :
  String.length (a ++ b) = (String.length a + String.length b)%nat.
Proof. induction a as [| c a IH]; simpl; [reflexivity | now rewrite IH]. Qed.

Lemma append_cancel_r (s a b : string) :
  (a ++ s = b ++ s)%string -> a = b.
Proof.
  revert b. induction a as [| c a IH]; intros [| d b] H.
  - reflexivity.
  - apply (f_equal String.length) in H.
    rewrite (length_append "" s), (length_append (String d b) s) in H.
    simpl in H. lia.
  - apply (f_equal String.length) in H.
    rewrite (length_append "" s), (length_append (String c a) s) in H.
    simpl in H. lia.
  - simpl in H. injection H as -> H. f_equal. now apply IH.
Qed.

Lemma append_cancel_l (s a b : string) :
  (s ++ a = s ++ b)%string -> a = b.
Proof.
  induction s as [| c s IH]; simpl; intros H; [exact H |].
  injection H as H. now apply IH.
Qed.

(** X11. When the storage accepts the connection, [save_state_to_blob]
    attempts one upload, to the container [agent-state] with overwrite set,
    of the serialised report under a name made of the clock reading; two
    such uploads go to the same name exactly when the clock gave the same
    text for both. *)
Theorem blob_names_collide_on_equal_readings (E : Env) (r1 r2 : value)
    (w1 w2 : World) :
  connect_storage E AZURE_STORAGE_CONNECTION_STRING = Ok tt ->
  exists n1 n2,
    trace (snd (save_state_to_blob E r1 w1))
    = (trace w1 ++ [BlobUploaded "agent-state" n1 (json_dumps E 2 r1) true])%list
    /\ trace (snd (save_state_to_blob E r2 w2))
       = (trace w2
          ++ [BlobUploaded "agent-state" n2 (json_dumps E 2 r2) true])%list
    /\ (n1 = n2 <->
        utcnow_isoformat E (clock_reads w1)
        = utcnow_isoformat E (clock_reads w2)).
Proof.
  intros Hconnect.
  exists (blob_name_at E w1), (blob_name_at E w2).
  rewrite !save_state_to_blob_run, Hconnect.
  split; [reflexivity |]. split; [reflexivity |].
  unfold blob_name_at. split.
  - intros H. apply append_cancel_l in H. now apply append_cancel_r in H.
  - intros ->. reflexivity.
Qed.

Lemma blob_names_collide_on_equal_readings_witness :
  exists n1 n2,
    trace (snd (save_state_to_blob Script.served VNone Script.world))
    = (trace Script.world
       ++ [BlobUploaded "agent-state" n1
             (json_dumps Script.served 2 VNone) true])%list
    /\ trace (snd (save_state_to_blob Script.served (VInt 1) Script.world))
       = (trace Script.world
          ++ [BlobUploaded "agent-state" n2
                (json_dumps Script.served 2 (VInt 1)) true])%list
    /\ (n1 = n2 <->
        utcnow_isoformat Script.served (clock_reads Script.world)
        = utcnow_isoformat Script.served (clock_reads Script.world)).
Proof.
  apply (blob_names_collide_on_equal_readings Script.served VNone (VInt 1)
           Script.world Script.world).
  reflexivity.
Defined.
